(** * Minkowski: a shallow embedding of [script.js]

    The script is a small 2D collision demo: vectors, two ray-cast primitives,
    three shape classes (Circle, RoundRect, AABB) with point containment,
    closest point, ray cast and Minkowski sum, and a solver on top of them.

    Numbers are JavaScript Numbers, that is IEEE 754 binary64 values; they are
    modelled by Rocq's primitive [float], which is the same format with the
    same rounding, so every definition below evaluates exactly as the script
    does (canvas drawing and text overlays are left out). *)

From Stdlib Require Import ZArith Floats String Bool List Lia.

Local Open Scope float_scope.

(** ** JavaScript built-ins used by the script *)

Module Number.
(** [Number.POSITIVE_INFINITY] *)
Definition POSITIVE_INFINITY : float := infinity.
(** [Number.EPSILON], 2^-52 *)
Definition EPSILON : float := 0x1p-52.
End Number.

Module Math.
(** [Math.sqrt], the correctly rounded square root that engines compute. *)
Definition sqrt (v : float) : float := PrimFloat.sqrt v.
Definition abs (v : float) : float := PrimFloat.abs v.

(** [Math.min]: NaN when an argument is NaN, and -0 counts as smaller
    than +0. *)
Definition min (a b : float) : float :=
  if is_nan a || is_nan b then nan
  else if a <? b then a
  else if b <? a then b
  else if get_sign a then a else b.

(** [Math.max]: NaN when an argument is NaN, and +0 counts as larger
    than -0. *)
Definition max (a b : float) : float :=
  if is_nan a || is_nan b then nan
  else if a <? b then b
  else if b <? a then a
  else if get_sign a then b else a.
End Math.

(** ** class Vector *)

Module Vector.
Record t : Set := new { x : float; y : float }.

Definition clone (this : t) : t := new (x this) (y this).

Definition add (a b : t) : t := new (x a + x b) (y a + y b).
Definition sub (a b : t) : t := new (x a - x b) (y a - y b).
Definition mul (v : t) (scalar : float) : t := new (x v * scalar) (y v * scalar).
Definition dot (a b : t) : float := x a * x b + y a * y b.
Definition cross (a b : t) : float := x a * y b - y a * x b.
Definition min (a b : t) : t := new (Math.min (x a) (x b)) (Math.min (y a) (y b)).
Definition max (a b : t) : t := new (Math.max (x a) (x b)) (Math.max (y a) (y b)).
Definition abs (v : t) : t := new (Math.abs (x v)) (Math.abs (y v)).

Definition length (this : t) : float := Math.sqrt (dot this this).
Definition normalized (this : t) : t := mul this (1 / length this).
Definition tangent (this : t) : t := new (- y this) (x this).

Definition ZERO : t := new 0 0.
End Vector.

(** ** The ray-cast primitives *)

(** [rayCastEdge]: hit fraction of segment A against segment B. *)
Definition rayCastEdge (originA endA originB endB : Vector.t) : float :=
  let r := Vector.sub endA originA in
  let s := Vector.sub endB originB in
  let det := Vector.cross r s in
  if det =? 0 then Number.POSITIVE_INFINITY
  else
    let dir := Vector.sub originB originA in
    let t1 := Vector.cross dir s / det in
    if (t1 <? 0) || (1 <? t1) then Number.POSITIVE_INFINITY
    else
      let t2 := Vector.cross dir r / det in
      if (t2 <? 0) || (1 <? t2) then Number.POSITIVE_INFINITY
      else t1.

(** [rayCastCircle]: hit fraction of a segment against a circle. *)
Definition rayCastCircle (origin direction center : Vector.t) (radius : float) : float :=
  let a := Vector.dot direction direction in
  let centerToOrigin := Vector.sub origin center in
  let b := 2 * Vector.dot direction centerToOrigin in
  let c := Vector.dot centerToOrigin centerToOrigin - radius * radius in
  let det := b * b - 4 * a * c in
  if (a <=? Number.EPSILON) || (det <? 0) then Number.POSITIVE_INFINITY
  else if det =? 0 then
    let t := - b / (2 * a) in
    if (0 <=? t) && (t <=? 1) then t else Number.POSITIVE_INFINITY
  else
    let t1 := (- b + Math.sqrt det) / (2 * a) in
    let t2 := (- b - Math.sqrt det) / (2 * a) in
    if (0 <=? t1) && (t1 <=? 1) then
      if (0 <=? t2) && (t2 <=? 1) then Math.min t1 t2 else t1
    else if (0 <=? t2) && (t2 <=? 1) then t2
    else Number.POSITIVE_INFINITY.

(** ** Exceptions

    The script throws template strings; reading a property of [undefined]
    (which only the second variant of the classes can do) raises a
    [TypeError]. *)

Inductive exception : Set :=
| Thrown (message : string)
| TypeError.

Inductive result (A : Type) : Type :=
| Ok (value : A)
| Throw (e : exception).

Arguments Ok {A} value.
Arguments Throw {A} e.

Definition bind {A B : Type} (r : result A) (k : A -> result B) : result B :=
  match r with
  | Ok a => k a
  | Throw e => Throw e
  end.

Notation "'let*' x ':=' r 'in' k" := (bind r (fun x => k))
  (at level 10, x name, r at level 100, k at level 200).

(** ** The shape classes: fields and the methods that need no other class

    The [Shape] constructor stores the center and a fresh zero velocity;
    each subclass constructor adds its extents. *)

Module Circle.
Record t : Set := Build { center : Vector.t; velocity : Vector.t; radius : float }.

Definition new (center : Vector.t) (radius : float) : t :=
  Build center (Vector.clone Vector.ZERO) radius.

Definition contains (this : t) (p : Vector.t) : bool :=
  Vector.length (Vector.sub p (center this)) <? radius this.

Definition closestPoint (this : t) (p : Vector.t) : Vector.t :=
  let v := Vector.sub p (center this) in
  Vector.add (center this) (Vector.mul v (radius this / Vector.length v)).

Definition rayCast (this : t) (origin direction : Vector.t) : float :=
  rayCastCircle origin direction (center this) (radius this).
End Circle.

Module RoundRect.
Record t : Set :=
  Build { center : Vector.t; velocity : Vector.t; hw : float; hh : float; radius : float }.

Definition new (center : Vector.t) (hw hh radius : float) : t :=
  Build center (Vector.clone Vector.ZERO) hw hh radius.

Definition left (this : t) : float := Vector.x (center this) - hw this.
Definition top (this : t) : float := Vector.y (center this) - hh this.
Definition right (this : t) : float := Vector.x (center this) + hw this.
Definition bottom (this : t) : float := Vector.y (center this) + hh this.

Definition contains (this : t) (p : Vector.t) : bool :=
  let p := Vector.sub p (center this) in
  let q := Vector.add (Vector.abs p)
             (Vector.new (- hw this + radius this) (- hh this + radius this)) in
  let t := Math.min (Math.max (Vector.x q) (Vector.y q)) 0
           + Vector.length (Vector.max q Vector.ZERO) - radius this in
  t <=? 0.

Definition closestPoint (this : t) (p : Vector.t) : Vector.t :=
  let v := Vector.sub p (center this) in
  let q := Vector.abs v in
  let minDist := Number.POSITIVE_INFINITY in
  let c := Vector.clone p in
  let r := Vector.new (hw this - radius this) (hh this - radius this) in
  if (Vector.x r <? Vector.x q) && (Vector.y r <? Vector.y q) then
    let w := Vector.sub q r in
    let w := Vector.add r (Vector.mul w (radius this / Vector.length w)) in
    let cx := Vector.x (center this) + (if 0 <? Vector.x v then Vector.x w else - Vector.x w) in
    let cy := Vector.y (center this) + (if 0 <? Vector.y v then Vector.y w else - Vector.y w) in
    Vector.new cx cy
  else
    let '(minDist, c) :=
      if Vector.x q <=? Vector.x r then
        (Math.abs (Vector.x q - hh this),
         Vector.new (Vector.x p) (if 0 <? Vector.y v then bottom this else top this))
      else (minDist, c) in
    let '(minDist, c) :=
      if (Vector.y q <? Vector.y r) && (Math.abs (Vector.y q - hw this) <? minDist) then
        (Math.abs (Vector.y q - hh this),
         Vector.new (if 0 <? Vector.x v then right this else left this) (Vector.y p))
      else (minDist, c) in
    c.

Definition rayCast (this : t) (origin direction : Vector.t) : float :=
  let end_ := Vector.add origin direction in
  let minT := rayCastEdge origin end_
                (Vector.new (left this) (top this + radius this))
                (Vector.new (left this) (bottom this - radius this)) in
  let t := rayCastEdge origin end_
             (Vector.new (left this + radius this) (bottom this))
             (Vector.new (right this - radius this) (bottom this)) in
  let minT := if t <? minT then t else minT in
  let t := rayCastEdge origin end_
             (Vector.new (right this) (top this + radius this))
             (Vector.new (right this) (bottom this - radius this)) in
  let minT := if t <? minT then t else minT in
  let t := rayCastEdge origin end_
             (Vector.new (left this + radius this) (top this))
             (Vector.new (right this - radius this) (top this)) in
  let minT := if t <? minT then t else minT in
  let t := rayCastCircle origin direction
             (Vector.new (left this + radius this) (top this + radius this)) (radius this) in
  let minT := if t <? minT then t else minT in
  let t := rayCastCircle origin direction
             (Vector.new (right this - radius this) (top this + radius this)) (radius this) in
  let minT := if t <? minT then t else minT in
  let t := rayCastCircle origin direction
             (Vector.new (right this - radius this) (bottom this - radius this)) (radius this) in
  let minT := if t <? minT then t else minT in
  let t := rayCastCircle origin direction
             (Vector.new (left this + radius this) (bottom this - radius this)) (radius this) in
  let minT := if t <? minT then t else minT in
  minT.
End RoundRect.

Module AABB.
Record t : Set := Build { center : Vector.t; velocity : Vector.t; hw : float; hh : float }.

Definition new (center : Vector.t) (hw hh : float) : t :=
  Build center (Vector.clone Vector.ZERO) hw hh.

Definition left (this : t) : float := Vector.x (center this) - hw this.
Definition top (this : t) : float := Vector.y (center this) - hh this.
Definition right (this : t) : float := Vector.x (center this) + hw this.
Definition bottom (this : t) : float := Vector.y (center this) + hh this.
Definition leftTop (this : t) : Vector.t := Vector.new (left this) (top this).
Definition leftBottom (this : t) : Vector.t := Vector.new (left this) (bottom this).
Definition rightTop (this : t) : Vector.t := Vector.new (right this) (top this).
Definition rightBottom (this : t) : Vector.t := Vector.new (right this) (bottom this).
Definition width (this : t) : float := hw this * 2.
Definition height (this : t) : float := hh this * 2.

Definition contains (this : t) (p : Vector.t) : bool :=
  (left this <=? Vector.x p) && (Vector.x p <=? right this)
  && (top this <=? Vector.y p) && (Vector.y p <=? bottom this).

Definition closestPoint (this : t) (p : Vector.t) : Vector.t :=
  let minDist := Math.abs (Vector.x p - left this) in
  let x := left this in
  let y := Vector.y p in
  let '(minDist, x) :=
    if Math.abs (right this - Vector.x p) <? minDist
    then (Math.abs (right this - Vector.x p), right this)
    else (minDist, x) in
  let '(minDist, x, y) :=
    if Math.abs (bottom this - Vector.y p) <? minDist
    then (Math.abs (bottom this - Vector.y p), Vector.x p, bottom this)
    else (minDist, x, y) in
  let '(minDist, x, y) :=
    if Math.abs (top this - Vector.y p) <? minDist
    then (Math.abs (top this - Vector.y p), Vector.x p, top this)
    else (minDist, x, y) in
  Vector.new x y.

Definition rayCast (this : t) (origin direction : Vector.t) : float :=
  let end_ := Vector.add origin direction in
  let minT := rayCastEdge origin end_ (leftTop this) (leftBottom this) in
  let t := rayCastEdge origin end_ (leftBottom this) (rightBottom this) in
  let minT := if t <? minT then t else minT in
  let t := rayCastEdge origin end_ (rightBottom this) (rightTop this) in
  let minT := if t <? minT then t else minT in
  let t := rayCastEdge origin end_ (rightTop this) (leftTop this) in
  let minT := if t <? minT then t else minT in
  minT.
End AABB.

(** ** class Shape and its three subclasses

    A value of [Shape] is an instance of one of the three classes; the
    [instanceof] tests of the script are matches on the constructor. *)

Inductive Shape : Set :=
| CircleShape (c : Circle.t)
| RoundRectShape (r : RoundRect.t)
| AABBShape (b : AABB.t).

Coercion CircleShape : Circle.t >-> Shape.
Coercion RoundRectShape : RoundRect.t >-> Shape.
Coercion AABBShape : AABB.t >-> Shape.

Module Shape.
(** [this.constructor.name] *)
Definition constructor_name (this : Shape) : string :=
  match this with
  | CircleShape _ => "Circle"
  | RoundRectShape _ => "RoundRect"
  | AABBShape _ => "AABB"
  end.

Definition center (this : Shape) : Vector.t :=
  match this with
  | CircleShape c => Circle.center c
  | RoundRectShape r => RoundRect.center r
  | AABBShape b => AABB.center b
  end.

Definition velocity (this : Shape) : Vector.t :=
  match this with
  | CircleShape c => Circle.velocity c
  | RoundRectShape r => RoundRect.velocity r
  | AABBShape b => AABB.velocity b
  end.

(** [this.center = v] *)
Definition set_center (this : Shape) (v : Vector.t) : Shape :=
  match this with
  | CircleShape c => Circle.Build v (Circle.velocity c) (Circle.radius c)
  | RoundRectShape r =>
      RoundRect.Build v (RoundRect.velocity r) (RoundRect.hw r) (RoundRect.hh r)
        (RoundRect.radius r)
  | AABBShape b => AABB.Build v (AABB.velocity b) (AABB.hw b) (AABB.hh b)
  end.

(** [this.velocity = v] *)
Definition set_velocity (this : Shape) (v : Vector.t) : Shape :=
  match this with
  | CircleShape c => Circle.Build (Circle.center c) v (Circle.radius c)
  | RoundRectShape r =>
      RoundRect.Build (RoundRect.center r) v (RoundRect.hw r) (RoundRect.hh r)
        (RoundRect.radius r)
  | AABBShape b => AABB.Build (AABB.center b) v (AABB.hw b) (AABB.hh b)
  end.

Definition setLinearVelocity (this : Shape) (velocity : Vector.t) : Shape :=
  set_velocity this (Vector.clone velocity).

Definition update (this : Shape) (dt : float) : Shape :=
  set_center this (Vector.add (center this) (Vector.mul (velocity this) dt)).

Definition contains (this : Shape) (p : Vector.t) : bool :=
  match this with
  | CircleShape c => Circle.contains c p
  | RoundRectShape r => RoundRect.contains r p
  | AABBShape b => AABB.contains b p
  end.

Definition closestPoint (this : Shape) (p : Vector.t) : Vector.t :=
  match this with
  | CircleShape c => Circle.closestPoint c p
  | RoundRectShape r => RoundRect.closestPoint r p
  | AABBShape b => AABB.closestPoint b p
  end.

Definition rayCast (this : Shape) (origin direction : Vector.t) : float :=
  match this with
  | CircleShape c => Circle.rayCast c origin direction
  | RoundRectShape r => RoundRect.rayCast r origin direction
  | AABBShape b => AABB.rayCast b origin direction
  end.

(** The message of the [throw] that ends every [sum]. *)
Definition not_implemented (this other : Shape) : exception :=
  Thrown ("sum is not implemented for " ++ constructor_name this
          ++ " and " ++ constructor_name other).

(** [Circle.sum]: its three [instanceof] tests cover all three classes, so
    its final [throw] is not reached by a [Shape]. *)
Definition Circle_sum (this : Circle.t) (other : Shape) : result Shape :=
  match other with
  | CircleShape other =>
      Ok (CircleShape
            (Circle.new (Vector.sub (Circle.center this) (Circle.center other))
               (Circle.radius this + Circle.radius other)))
  | AABBShape other =>
      Ok (RoundRectShape
            (RoundRect.new (Vector.sub (Circle.center this) (AABB.center other))
               (Circle.radius this + AABB.hw other)
               (Circle.radius this + AABB.hh other)
               (Circle.radius this)))
  | RoundRectShape other =>
      Ok (RoundRectShape
            (RoundRect.new (Vector.sub (Circle.center this) (RoundRect.center other))
               (Circle.radius this + RoundRect.hw other)
               (Circle.radius this + RoundRect.hh other)
               (Circle.radius this + RoundRect.radius other)))
  end.

Definition RoundRect_sum (this : RoundRect.t) (other : Shape) : result Shape :=
  match other with
  | AABBShape other =>
      Ok (RoundRectShape
            (RoundRect.new (Vector.sub (RoundRect.center this) (AABB.center other))
               (RoundRect.hw this + AABB.hw other)
               (RoundRect.hh this + AABB.hh other)
               (RoundRect.radius this)))
  | CircleShape other =>
      Ok (RoundRectShape
            (RoundRect.new (Vector.sub (RoundRect.center this) (Circle.center other))
               (RoundRect.hw this + Circle.radius other)
               (RoundRect.hh this + Circle.radius other)
               (RoundRect.radius this + Circle.radius other)))
  | _ => Throw (not_implemented this other)
  end.

(** [AABB.sum]: as for [Circle.sum], the final [throw] is not reached. *)
Definition AABB_sum (this : AABB.t) (other : Shape) : result Shape :=
  match other with
  | AABBShape other =>
      Ok (AABBShape
            (AABB.new (Vector.sub (AABB.center this) (AABB.center other))
               (AABB.hw this + AABB.hw other)
               (AABB.hh this + AABB.hh other)))
  | CircleShape other =>
      Ok (RoundRectShape
            (RoundRect.new (Vector.sub (AABB.center this) (Circle.center other))
               (Circle.radius other + AABB.hw this)
               (Circle.radius other + AABB.hh this)
               (Circle.radius other)))
  | RoundRectShape other =>
      Ok (RoundRectShape
            (RoundRect.new (Vector.sub (AABB.center this) (RoundRect.center other))
               (AABB.hw this + RoundRect.hw other)
               (AABB.hh this + RoundRect.hh other)
               (RoundRect.radius other)))
  end.

Definition sum (this other : Shape) : result Shape :=
  match this with
  | CircleShape c => Circle_sum c other
  | RoundRectShape r => RoundRect_sum r other
  | AABBShape b => AABB_sum b other
  end.

(** The [radius] field of a shape; an [AABB] has none. *)
Definition radius (this : Shape) : option float :=
  match this with
  | CircleShape c => Some (Circle.radius c)
  | RoundRectShape r => Some (RoundRect.radius r)
  | AABBShape _ => None
  end.

Definition intersects (this other : Shape) : result bool :=
  let* s := sum this other in
  Ok (contains s Vector.ZERO).

(** [null] is [None]. *)
Definition intersect (this other : Shape) : result (option Vector.t) :=
  let* s := sum this other in
  if contains s Vector.ZERO then
    let p := closestPoint s Vector.ZERO in
    Ok (Some p)
  else Ok None.

(** [solveCollisions] assigns to [this.center] and [other.center]; the two
    shapes after the call are returned as a pair (the two arguments being
    distinct objects). *)
Definition solveCollisions (this other : Shape) (dt : float) : result (Shape * Shape) :=
  let* s := sum other this in
  if contains s Vector.ZERO then
    let p := closestPoint s Vector.ZERO in
    Ok (set_center this (Vector.add (center this) p), other)
  else
    let relativeMotion := Vector.sub (velocity this) (velocity other) in
    let h := rayCast s Vector.ZERO relativeMotion in
    if h <? Number.POSITIVE_INFINITY then
      Ok (set_center this (Vector.add (center this) (Vector.mul (velocity this) (dt * h))),
          set_center other (Vector.add (center other) (Vector.mul (velocity other) (dt * h))))
    else
      Ok (set_center this (Vector.add (center this) (Vector.mul (velocity this) dt)),
          set_center other (Vector.add (center other) (Vector.mul (velocity other) dt))).
End Shape.

(** ** The second variant of the classes

    The script holds a second, older copy of the classes.  [Vector], the
    [contains] and [closestPoint] methods, [intersects] and [intersect] are
    the same text; what differs is modelled here: the ray casts are methods
    ([RoundRect.rayCast] has an empty body), [sum] ends without a [throw],
    and [solveCollisions] casts the ray against [this] and then assigns the
    product of a number and a [Vector] to both velocities. *)

Module Alt.
(** [ToNumber(undefined)], the value of a missing field in arithmetic. *)
Definition undefined_number : float := nan.

(** [ToNumber] of a [Vector]: the object has neither [valueOf] nor
    [toString] of its own, so it converts through the string
    "[object Object]" to NaN. *)
Definition ToNumber_Vector (v : Vector.t) : float := nan.

(** What a [velocity] field holds after [solveCollisions]. *)
Inductive value : Set :=
| VVector (v : Vector.t)
| VNumber (n : float).

Definition Circle_rayCast (this : Circle.t) (origin direction : Vector.t) : float :=
  let a := Vector.dot direction direction in
  let centerToOrigin := Vector.sub origin (Circle.center this) in
  let b := 2 * Vector.dot direction centerToOrigin in
  let c := Vector.dot centerToOrigin centerToOrigin - Circle.radius this * Circle.radius this in
  let det := b * b - 4 * a * c in
  if (a <=? Number.EPSILON) || (det <? 0) then Number.POSITIVE_INFINITY
  else if det =? 0 then
    let t := - b / (2 * a) in
    if (0 <=? t) && (t <=? 1) then t else Number.POSITIVE_INFINITY
  else
    let t1 := (- b + Math.sqrt det) / (2 * a) in
    let t2 := (- b - Math.sqrt det) / (2 * a) in
    if (0 <=? t1) && (t1 <=? 1) then
      if (0 <=? t2) && (t2 <=? 1) then Math.min t1 t2 else t1
    else if (0 <=? t2) && (t2 <=? 1) then t2
    else Number.POSITIVE_INFINITY.

(** The static [AABB.rayCastEdge]. *)
Definition AABB_rayCastEdge (originA endA originB endB : Vector.t) : float :=
  let r := Vector.sub endA originA in
  let s := Vector.sub endB originB in
  let numerator := Vector.dot (Vector.sub originB originA) r in
  let denominator := Vector.dot r s in
  if (numerator =? 0) && (denominator =? 0) then Number.POSITIVE_INFINITY
  else if denominator =? 0 then Number.POSITIVE_INFINITY
  else
    let u := numerator / denominator in
    let t := Vector.dot (Vector.sub originB originA) s / denominator in
    if (0 <=? t) && (t <=? 1) && (0 <=? u) && (u <=? 1) then t
    else Number.POSITIVE_INFINITY.

Definition AABB_rayCast (this : AABB.t) (origin direction : Vector.t) : float :=
  let end_ := Vector.add origin direction in
  let minT := AABB_rayCastEdge origin end_ (AABB.leftTop this) (AABB.leftBottom this) in
  let x := AABB_rayCastEdge origin end_ (AABB.leftBottom this) (AABB.rightBottom this) in
  let minT := if x <? minT then x else minT in
  let x := AABB_rayCastEdge origin end_ (AABB.rightBottom this) (AABB.rightTop this) in
  let minT := if x <? minT then x else minT in
  let x := AABB_rayCastEdge origin end_ (AABB.rightTop this) (AABB.leftTop this) in
  let minT := if x <? minT then x else minT in
  minT.

(** [rayCast]; [None] is the [undefined] of the empty [RoundRect.rayCast]. *)
Definition rayCast (this : Shape) (origin direction : Vector.t) : option float :=
  match this with
  | CircleShape c => Some (Circle_rayCast c origin direction)
  | RoundRectShape _ => None
  | AABBShape b => Some (AABB_rayCast b origin direction)
  end.

(** [sum]; [None] is the [undefined] a [sum] returns when no test matches.
    [RoundRect] does not override [Shape.sum], which throws.  In [AABB.sum]
    the circle branch reads [this.radius] and [other.hw], fields that an
    [AABB] and a [Circle] do not have: the sums are NaN, and the radius of
    the result is [undefined], which every later use converts to NaN. *)
Definition sum (this other : Shape) : result (option Shape) :=
  match this, other with
  | CircleShape this, CircleShape other =>
      Ok (Some (CircleShape
            (Circle.new (Vector.sub (Circle.center this) (Circle.center other))
               (Circle.radius this + Circle.radius other))))
  | CircleShape this, AABBShape other =>
      Ok (Some (RoundRectShape
            (RoundRect.new (Vector.sub (Circle.center this) (AABB.center other))
               (Circle.radius this + AABB.hw other)
               (Circle.radius this + AABB.hh other)
               (Circle.radius this))))
  | CircleShape _, RoundRectShape _ => Ok None
  | RoundRectShape _, _ => Throw (Thrown "implement sum")
  | AABBShape this, AABBShape other =>
      Ok (Some (AABBShape
            (AABB.new (Vector.sub (AABB.center this) (AABB.center other))
               (AABB.hw this + AABB.hw other)
               (AABB.hh this + AABB.hh other))))
  | AABBShape this, CircleShape other =>
      Ok (Some (RoundRectShape
            (RoundRect.new (Vector.sub (AABB.center this) (Circle.center other))
               (undefined_number + undefined_number)
               (undefined_number + undefined_number)
               undefined_number)))
  | AABBShape _, RoundRectShape _ => Ok None
  end.

(** The centers and velocities of [this] and [other] after the call. *)
Record outcome : Set := Outcome {
  this_center : Vector.t;
  this_velocity : value;
  other_center : Vector.t;
  other_velocity : value
}.

Definition solveCollisions (this other : Shape) (dt : float) : result outcome :=
  let* s := sum other this in
  match s with
  | None => Throw TypeError
  | Some s =>
      if Shape.contains s Vector.ZERO then
        let p := Shape.closestPoint s Vector.ZERO in
        Ok (Outcome (Vector.add (Shape.center this) p) (VVector (Shape.velocity this))
              (Shape.center other) (VVector (Shape.velocity other)))
      else
        let relativeMotion := Vector.sub (Shape.velocity this) (Shape.velocity other) in
        let h := rayCast this Vector.ZERO relativeMotion in
        match h with
        | Some h =>
            if h <? Number.POSITIVE_INFINITY then
              let tangent := Vector.tangent (Vector.normalized relativeMotion) in
              Ok (Outcome
                    (Vector.add (Shape.center this)
                       (Vector.mul (Shape.velocity this) (dt * h)))
                    (VNumber (Vector.dot (Shape.velocity this) tangent
                              * ToNumber_Vector tangent))
                    (Vector.add (Shape.center other)
                       (Vector.mul (Shape.velocity other) (dt * h)))
                    (VNumber (Vector.dot (Shape.velocity other) tangent
                              * ToNumber_Vector tangent)))
            else
              Ok (Outcome
                    (Vector.add (Shape.center this) (Vector.mul (Shape.velocity this) dt))
                    (VVector (Shape.velocity this))
                    (Vector.add (Shape.center other) (Vector.mul (Shape.velocity other) dt))
                    (VVector (Shape.velocity other)))
        | None =>
            (* [undefined < Infinity] is false *)
            Ok (Outcome
                  (Vector.add (Shape.center this) (Vector.mul (Shape.velocity this) dt))
                  (VVector (Shape.velocity this))
                  (Vector.add (Shape.center other) (Vector.mul (Shape.velocity other) dt))
                  (VVector (Shape.velocity other)))
        end
  end.
End Alt.


(** ** Notions used in the statements *)

(** [t] lies in the closed interval from 0 to 1. *)
Definition in_unit_interval (t : float) : bool := (0 <=? t) && (t <=? 1).

(** The eight pairs of classes for which [sum] is meant to have a formula:
    circle/circle, circle/box, circle/roundedRect, box/box, box/roundedRect,
    roundedRect/box, roundedRect/circle and box/circle; two rounded
    rectangles are the pair left out. *)
Definition has_sum_formula (a b : Shape) : bool :=
  match a, b with
  | CircleShape _, CircleShape _
  | CircleShape _, AABBShape _
  | CircleShape _, RoundRectShape _
  | AABBShape _, AABBShape _
  | AABBShape _, RoundRectShape _
  | RoundRectShape _, AABBShape _
  | RoundRectShape _, CircleShape _
  | AABBShape _, CircleShape _ => true
  | RoundRectShape _, RoundRectShape _ => false
  end.

(** The tangential response [dot(velocity, tangent) * tangent], with
    [tangent] the perpendicular of the normalized relative motion. *)
Definition tangent_response (velocity relativeMotion : Vector.t) : Vector.t :=
  let tangent := Vector.tangent (Vector.normalized relativeMotion) in
  Vector.mul tangent (Vector.dot velocity tangent).

(** ** Classes of binary64 values, read off the specification [Prim2SF] *)

(** A value that is not NaN and has sign [sx]. *)
Definition sf_signed (sx : bool) (r : spec_float) : Prop :=
  match r with
  | S754_zero s | S754_infinity s | S754_finite s _ _ => s = sx
  | S754_nan => False
  end.

(** A float that is zero or negative (and not NaN). *)
Definition sf_nonpos (x : spec_float) : Prop :=
  match x with
  | S754_zero _ => True
  | S754_infinity s | S754_finite s _ _ => s = true
  | S754_nan => False
  end.

Definition nonpos (x : float) : Prop := sf_nonpos (Prim2SF x).

(** A float that is positive and finite. *)
Definition posfin (x : float) : Prop :=
  exists m e, Prim2SF x = S754_finite false m e.


(** ** Sample scenes *)

Module Scene.
(** Two unit circles three units apart, the left one moving right. *)
Definition moving_circle : Circle.t := Circle.Build (Vector.new 0 0) (Vector.new 1 0) 1.
Definition resting_circle : Circle.t := Circle.Build (Vector.new 3 0) (Vector.new 0 0) 1.

(** Two unit circles one unit apart: they overlap. *)
Definition overlapping_circle : Circle.t := Circle.Build (Vector.new 1 0) (Vector.new 0 2) 1.

(** A rounded rectangle whose corner radius exceeds its half extents. *)
Definition fat_corners : RoundRect.t := RoundRect.new (Vector.new 0 0) 1 1 10.

(** The rounded rectangle and the box of the demo, moved to the origin. *)
Definition demo_round_rect : RoundRect.t := RoundRect.new (Vector.new 0 0) 50 50 20.
Definition demo_box : AABB.t := AABB.new (Vector.new 0 0) 50 50.
End Scene.

(** ** The order of binary64 values as a lexicographic key

    [SFcompare] orders the values that are not NaN by class (negative
    infinity, negative, zero, positive, positive infinity), then by
    exponent, then by mantissa; [sf_key] names that triple. *)

Definition sf_key (x : spec_float) : Z * Z * Z :=
  match x with
  | S754_infinity true => (-2, 0, 0)%Z
  | S754_finite true m e => (-1, - e, - Zpos m)%Z
  | S754_zero _ => (0, 0, 0)%Z
  | S754_nan => (0, 0, 0)%Z
  | S754_finite false m e => (1, e, Zpos m)%Z
  | S754_infinity false => (2, 0, 0)%Z
  end.

Definition key_le (a b : Z * Z * Z) : Prop :=
  let '(a1, a2, a3) := a in
  let '(b1, b2, b3) := b in
  (a1 < b1 \/ (a1 = b1 /\ (a2 < b2 \/ (a2 = b2 /\ a3 <= b3))))%Z.

(** ** Values that mirror each other

    [v] is the opposite of [u]; or both are +0, which is what two opposite
    differences [x - y] and [y - x] give when [x = y]. *)

Definition sf_mirror (u v : spec_float) : Prop :=
  v = SFopp u \/ (u = S754_zero false /\ v = S754_zero false).

Definition mirror (u v : float) : Prop := sf_mirror (Prim2SF u) (Prim2SF v).

(** ** Shapes of the same class and size *)

Definition same_extents (S S' : Shape) : Prop :=
  match S, S' with
  | CircleShape c, CircleShape c' => Circle.radius c = Circle.radius c'
  | RoundRectShape r, RoundRectShape r' =>
      RoundRect.hw r = RoundRect.hw r' /\ RoundRect.hh r = RoundRect.hh r'
      /\ RoundRect.radius r = RoundRect.radius r'
  | AABBShape b, AABBShape b' => AABB.hw b = AABB.hw b' /\ AABB.hh b = AABB.hh b'
  | _, _ => False
  end.

(** ** Ray-cast results

    A hit fraction in [0, 1], or +Infinity for a miss. *)
Definition hit_or_miss (t : float) : Prop :=
  t = Number.POSITIVE_INFINITY \/ in_unit_interval t = true.

(** ** The casts that [rayCast] compares

    [AABB.rayCast] casts the segment against the four sides of the box and
    [RoundRect.rayCast] against four sides and four corner circles, in this
    order; each keeps the least result seen so far. *)

Definition keep_least (minT t : float) : float := if t <? minT then t else minT.

Definition AABB_casts (this : AABB.t) (origin direction : Vector.t) : list float :=
  let end_ := Vector.add origin direction in
  rayCastEdge origin end_ (AABB.leftTop this) (AABB.leftBottom this)
  :: rayCastEdge origin end_ (AABB.leftBottom this) (AABB.rightBottom this)
  :: rayCastEdge origin end_ (AABB.rightBottom this) (AABB.rightTop this)
  :: rayCastEdge origin end_ (AABB.rightTop this) (AABB.leftTop this)
  :: nil.

Definition RoundRect_casts (this : RoundRect.t) (origin direction : Vector.t) : list float :=
  let end_ := Vector.add origin direction in
  let left := RoundRect.left this in
  let right := RoundRect.right this in
  let top := RoundRect.top this in
  let bottom := RoundRect.bottom this in
  let radius := RoundRect.radius this in
  rayCastEdge origin end_ (Vector.new left (top + radius)) (Vector.new left (bottom - radius))
  :: rayCastEdge origin end_ (Vector.new (left + radius) bottom)
       (Vector.new (right - radius) bottom)
  :: rayCastEdge origin end_ (Vector.new right (top + radius))
       (Vector.new right (bottom - radius))
  :: rayCastEdge origin end_ (Vector.new (left + radius) top) (Vector.new (right - radius) top)
  :: rayCastCircle origin direction (Vector.new (left + radius) (top + radius)) radius
  :: rayCastCircle origin direction (Vector.new (right - radius) (top + radius)) radius
  :: rayCastCircle origin direction (Vector.new (right - radius) (bottom - radius)) radius
  :: rayCastCircle origin direction (Vector.new (left + radius) (bottom - radius)) radius
  :: nil.

(** The first cast, then [keep_least] over the others. *)
Definition least_cast (casts : list float) : float :=
  match casts with
  | nil => Number.POSITIVE_INFINITY
  | first :: others => fold_left keep_least others first
  end.

(** * Facts about binary64 arithmetic

    The standard library specifies the primitive operations through
    [Prim2SF] and the functions of [SpecFloat]; the facts below are derived
    from that specification. *)

Module Binary64.

(** Reads every comparison of the goal through [SFcompare]. *)
Ltac by_compare :=
  rewrite ?FloatAxioms.eqb_spec, ?FloatAxioms.ltb_spec, ?FloatAxioms.leb_spec;
  unfold SFeqb, SFltb, SFleb.

(** ** The order *)

Lemma SFcompare_antisym (x y : spec_float) :
  SFcompare y x = option_map CompOpp (SFcompare x y).
Proof.
  destruct x as [sx|sx| |sx mx ex], y as [sy|sy| |sy my ey]; simpl;
    try destruct sx; try destruct sy; try reflexivity.
  all: assert (H : CompOpp (PosDef.Pos.compare_cont Eq mx my) = PosDef.Pos.compare_cont Eq my mx)
    by exact (Pos.compare_cont_antisym mx my Eq).
  all: rewrite (Z.compare_antisym ex ey); destruct (ex ?= ey)%Z; simpl; try reflexivity.
  all: rewrite <- H; try rewrite CompOpp_involutive; reflexivity.
Qed.

Lemma SFcompare_refl (x : spec_float) :
  x <> S754_nan -> SFcompare x x = Some Eq.
Proof.
  destruct x as [s|s| |s m e]; simpl; intros H; try congruence.
  - destruct s; reflexivity.
  - assert (H0 : PosDef.Pos.compare_cont Eq m m = Eq) by exact (Pos.compare_refl m).
    destruct s; rewrite Z.compare_refl, H0; reflexivity.
Qed.

Lemma SFcompare_Some_not_nan x y c : SFcompare x y = Some c -> x <> S754_nan /\ y <> S754_nan.
Proof.
  destruct x, y; simpl; intros; split; congruence.
Qed.

Lemma is_nan_spec (x : float) : is_nan x = true <-> Prim2SF x = S754_nan.
Proof.
  unfold is_nan. by_compare. split.
  - destruct (Prim2SF x) eqn:E; auto; rewrite SFcompare_refl by congruence; discriminate.
  - intros ->. reflexivity.
Qed.

Lemma leb_ltb_false (x y : float) : (x <=? y) = true -> (y <? x) = false.
Proof.
  by_compare. rewrite (SFcompare_antisym (Prim2SF x) (Prim2SF y)).
  destruct (SFcompare (Prim2SF x) (Prim2SF y)) as [[]|]; simpl; congruence.
Qed.

Lemma ltb_leb (x y : float) : (x <? y) = true -> (x <=? y) = true.
Proof.
  by_compare. destruct (SFcompare (Prim2SF x) (Prim2SF y)) as [[]|]; simpl; congruence.
Qed.

Lemma eqb_ltb_false (x y : float) : (x =? y) = true -> (x <? y) = false.
Proof.
  by_compare. destruct (SFcompare (Prim2SF x) (Prim2SF y)) as [[]|]; congruence.
Qed.

Lemma leb_not_nan (x y : float) :
  (x <=? y) = true -> is_nan x = false /\ is_nan y = false.
Proof.
  by_compare.
  destruct (SFcompare (Prim2SF x) (Prim2SF y)) as [c|] eqn:E; try discriminate.
  intros _. apply SFcompare_Some_not_nan in E. destruct E as [Hx Hy].
  split; apply not_true_is_false; rewrite is_nan_spec; assumption.
Qed.

Lemma eqb_refl (x : float) : is_nan x = false -> (x =? x) = true.
Proof.
  unfold is_nan. intros H. apply negb_false_iff in H. exact H.
Qed.

Lemma leb_refl (x : float) : is_nan x = false -> (x <=? x) = true.
Proof.
  intros H. by_compare. rewrite SFcompare_refl; auto.
  intros E. apply is_nan_spec in E. congruence.
Qed.

Lemma leb_total (x y : float) :
  is_nan x = false -> is_nan y = false -> (x <? y) = false -> (y <? x) = false ->
  (x <=? y) = true /\ (y <=? x) = true.
Proof.
  intros Hx Hy. by_compare. rewrite (SFcompare_antisym (Prim2SF x) (Prim2SF y)).
  destruct (SFcompare (Prim2SF x) (Prim2SF y)) as [[]|] eqn:E; simpl; try (intuition congruence).
  exfalso.
  assert (Prim2SF x <> S754_nan) by (intros F; apply is_nan_spec in F; congruence).
  assert (Prim2SF y <> S754_nan) by (intros F; apply is_nan_spec in F; congruence).
  destruct (Prim2SF x), (Prim2SF y); simpl in E; congruence.
Qed.

(** ** Addition is commutative *)

Lemma SFadd_comm (x y : spec_float) : SF64add x y = SF64add y x.
Proof.
  unfold SF64add, SFadd.
  destruct x as [sx|sx| |sx mx ex], y as [sy|sy| |sy my ey];
    try destruct sx; try destruct sy; try reflexivity.
  all: rewrite (Z.min_comm ey ex); rewrite Z.add_comm; reflexivity.
Qed.

Lemma add_comm (x y : float) : x + y = y + x.
Proof.
  apply Prim2SF_inj. rewrite !add_spec. apply SFadd_comm.
Qed.

(** ** Rounding keeps the sign *)

Section Rounding.
Variables prec emax : Z.

Lemma iter_pos_invariant {A : Type} (f : A -> A) (P : A -> Prop) :
  (forall a, P a -> P (f a)) -> forall n a, P a -> P (iter_pos f n a).
Proof.
  intros Hf. induction n as [n IH|n IH|]; simpl; intros a Ha; auto.
Qed.

Lemma shr_1_nonneg mrs : (0 <= shr_m mrs)%Z -> (0 <= shr_m (shr_1 mrs))%Z.
Proof.
  destruct mrs as [m r s]. simpl. destruct m as [|[p|p|]|[p|p|]]; simpl; lia.
Qed.

Lemma shr_fexp_nonneg m e l :
  (0 <= m)%Z -> (0 <= shr_m (fst (shr_fexp prec emax m e l)))%Z.
Proof.
  intros Hm. unfold shr_fexp, shr.
  assert (H0 : (0 <= shr_m (shr_record_of_loc m l))%Z)
    by (destruct l as [|[]]; simpl; assumption).
  destruct (fexp prec emax (Zdigits2 m + e) - e)%Z; simpl; auto.
  apply iter_pos_invariant; auto using shr_1_nonneg.
Qed.

Lemma round_nearest_even_nonneg m l : (0 <= m)%Z -> (0 <= round_nearest_even m l)%Z.
Proof.
  intros Hm. destruct l as [|[]]; simpl; try lia.
  destruct (Z.even m); lia.
Qed.

Lemma binary_round_aux_signed sx mx ex lx :
  (0 <= mx)%Z -> sf_signed sx (binary_round_aux prec emax sx mx ex lx).
Proof.
  intros Hm. unfold binary_round_aux.
  pose proof (shr_fexp_nonneg mx ex lx Hm) as H1.
  destruct (shr_fexp prec emax mx ex lx) as [mrs' e']. simpl in H1.
  pose proof (shr_fexp_nonneg _ e' loc_Exact
                (round_nearest_even_nonneg _ (loc_of_shr_record mrs') H1)) as H2.
  destruct (shr_fexp prec emax _ e' loc_Exact) as [mrs'' e'']. simpl in H2.
  destruct (shr_m mrs'') as [|m|m]; simpl; try reflexivity.
  - destruct (e'' <=? emax - prec)%Z; reflexivity.
  - lia.
Qed.

Lemma binary_round_signed sx mx ex : sf_signed sx (binary_round prec emax sx mx ex).
Proof.
  unfold binary_round. destruct (shl_align _ _ _) as [mz ez].
  apply binary_round_aux_signed. lia.
Qed.

Lemma binary_normalize_nonpos m e :
  (m <= 0)%Z ->
  binary_normalize prec emax m e false = S754_zero false
  \/ sf_signed true (binary_normalize prec emax m e false).
Proof.
  intros Hm. destruct m as [|p|p]; simpl.
  - left; reflexivity.
  - lia.
  - right. apply binary_round_signed.
Qed.

Lemma binary_normalize_neg m e :
  (m < 0)%Z -> sf_signed true (binary_normalize prec emax m e false).
Proof.
  intros Hm. destruct m as [|p|p]; simpl; try lia. apply binary_round_signed.
Qed.
End Rounding.

(** ** Mantissas aligned on a common exponent *)

Lemma iter_xO_value (m d : positive) :
  Zpos (Pos.iter xO m d) = (Zpos m * 2 ^ Zpos d)%Z.
Proof.
  induction d as [|d IH] using Pos.peano_ind.
  - simpl. lia.
  - rewrite Pos.iter_succ, Pos2Z.inj_succ, Z.pow_succ_r by lia.
    rewrite Pos2Z.inj_xO, IH. lia.
Qed.

Lemma shl_align_value (m : positive) (e e' : Z) :
  (e' <= e)%Z -> Zpos (fst (shl_align m e e')) = (Zpos m * 2 ^ (e - e'))%Z.
Proof.
  intros H. unfold shl_align.
  destruct (e' - e)%Z as [|p|p] eqn:E; simpl.
  - replace (e - e')%Z with 0%Z by lia. simpl. lia.
  - lia.
  - replace (e - e')%Z with (Zpos p) by lia.
    exact (iter_xO_value m p).
Qed.

Lemma digits2_pos_bounds (m : positive) :
  (2 ^ (Zpos (digits2_pos m) - 1) <= Zpos m < 2 ^ Zpos (digits2_pos m))%Z.
Proof.
  induction m as [m IH|m IH|]; simpl digits2_pos.
  - rewrite Pos2Z.inj_succ, (Pos2Z.inj_xI m).
    replace (Z.succ (Zpos (digits2_pos m)) - 1)%Z with (Z.succ (Zpos (digits2_pos m) - 1)) by lia.
    rewrite !Z.pow_succ_r by lia.
    generalize dependent (2 ^ (Z.pos (digits2_pos m) - 1))%Z.
    generalize dependent (2 ^ Z.pos (digits2_pos m))%Z. intros; lia.
  - rewrite Pos2Z.inj_succ, (Pos2Z.inj_xO m).
    replace (Z.succ (Zpos (digits2_pos m)) - 1)%Z with (Z.succ (Zpos (digits2_pos m) - 1)) by lia.
    rewrite !Z.pow_succ_r by lia.
    generalize dependent (2 ^ (Z.pos (digits2_pos m) - 1))%Z.
    generalize dependent (2 ^ Z.pos (digits2_pos m))%Z. intros; lia.
  - simpl. lia.
Qed.

Lemma bounded_digits (m : positive) (e : Z) :
  bounded prec emax m e = true ->
  (Zpos (digits2_pos m) <= prec)%Z /\ (SpecFloat.emin prec emax <= e)%Z
  /\ ((SpecFloat.emin prec emax < e)%Z -> Zpos (digits2_pos m) = prec).
Proof.
  unfold bounded, canonical_mantissa, fexp, SpecFloat.emin, prec, emax.
  intros H. apply andb_prop in H. destruct H as [H _].
  apply Z.eqb_eq in H. lia.
Qed.

Lemma compare_cont_le (p q : positive) :
  PosDef.Pos.compare_cont Eq p q <> Gt -> (Zpos p <= Zpos q)%Z.
Proof.
  intros H. change (Pos.compare p q <> Gt) in H.
  rewrite Pos2Z.inj_compare in H. apply Z.compare_le_iff. exact H.
Qed.

Lemma aligned_le (mr mh : positive) (er eh : Z) :
  bounded prec emax mr er = true -> bounded prec emax mh eh = true ->
  SFleb (S754_finite false mr er) (S754_finite false mh eh) = true ->
  (Zpos (fst (shl_align mr er (Z.min eh er)))
   <= Zpos (fst (shl_align mh eh (Z.min eh er))))%Z.
Proof.
  intros Br Bh. unfold SFleb. simpl SFcompare.
  destruct (Z.compare_spec er eh) as [E|E|E]; intros H.
  - subst eh. rewrite Z.min_id, !shl_align_value by lia.
    rewrite Z.sub_diag. simpl (2 ^ 0)%Z. rewrite !Z.mul_1_r.
    apply compare_cont_le. destruct (PosDef.Pos.compare_cont Eq mr mh); congruence.
  - rewrite Z.min_r by lia. rewrite !shl_align_value by lia.
    rewrite Z.sub_diag. simpl (2 ^ 0)%Z. rewrite Z.mul_1_r.
    destruct (bounded_digits _ _ Br) as (Dr & Er & _).
    destruct (bounded_digits _ _ Bh) as (_ & _ & Dh).
    specialize (Dh ltac:(lia)).
    pose proof (digits2_pos_bounds mr) as [_ Ur].
    pose proof (digits2_pos_bounds mh) as [Lh _].
    rewrite Dh in Lh.
    assert (U : (2 ^ Zpos (digits2_pos mr) <= 2 ^ prec)%Z)
      by (apply Z.pow_le_mono_r; lia).
    assert (P : (2 ^ 1 <= 2 ^ (eh - er))%Z) by (apply Z.pow_le_mono_r; lia).
    assert (Q : (2 ^ prec = 2 ^ (prec - 1) * 2 ^ 1)%Z) by reflexivity.
    nia.
  - discriminate.
Qed.

(** ** Floats seen through their specification *)

Lemma Prim2SF_zero (x : float) (s : bool) :
  Prim2SF x = S754_zero s -> x = if s then neg_zero else zero.
Proof.
  intros H. rewrite <- (SF2Prim_Prim2SF x), H. destruct s; reflexivity.
Qed.

Lemma Prim2SF_infinity (x : float) (s : bool) :
  Prim2SF x = S754_infinity s -> x = if s then neg_infinity else infinity.
Proof.
  intros H. rewrite <- (SF2Prim_Prim2SF x), H. destruct s; reflexivity.
Qed.

Lemma Prim2SF_nan (x : float) : Prim2SF x = S754_nan -> x = nan.
Proof.
  intros H. rewrite <- (SF2Prim_Prim2SF x), H. reflexivity.
Qed.

Lemma posfin_intro (r : float) :
  (0 <? r) = true -> (r <? infinity) = true -> posfin r.
Proof.
  by_compare.
  change (Prim2SF 0) with (S754_zero false).
  change (Prim2SF infinity) with (S754_infinity false).
  destruct (Prim2SF r) as [s|s| |s m e] eqn:E; simpl; try discriminate.
  - destruct s; discriminate.
  - destruct s; try discriminate. intros _ _. exists m, e. exact E.
Qed.

(** ** Values that are zero or negative *)

Lemma sf_signed_nonpos (x : spec_float) : sf_signed true x -> sf_nonpos x.
Proof. destruct x; simpl; auto. Qed.

Lemma nonpos_not_nan (x : float) : nonpos x -> is_nan x = false.
Proof.
  unfold nonpos, sf_nonpos. intros H. apply not_true_is_false. rewrite is_nan_spec.
  intros E. rewrite E in H. exact H.
Qed.

Lemma nonpos_zero : nonpos 0.
Proof. exact I. Qed.

Lemma nonpos_ltb_zero (x : float) : nonpos x -> (0 <? x) = false.
Proof.
  unfold nonpos, sf_nonpos. by_compare.
  change (Prim2SF 0) with (S754_zero false).
  destruct (Prim2SF x) as [s|s| |s m e]; simpl; try reflexivity; intros ->; reflexivity.
Qed.

Lemma nonpos_leb_zero (x : float) : nonpos x -> (x <=? 0) = true.
Proof.
  unfold nonpos, sf_nonpos. by_compare.
  change (Prim2SF 0) with (S754_zero false).
  destruct (Prim2SF x) as [s|s| |s m e]; simpl; try reflexivity;
    try (intros ->; reflexivity); intros [].
Qed.

Lemma zero_add_nonpos (d : float) : nonpos d -> nonpos (0 + d).
Proof.
  unfold nonpos, sf_nonpos. rewrite add_spec. change (Prim2SF 0) with (S754_zero false).
  destruct (Prim2SF d) as [s|s| |s m e]; simpl; auto.
  destruct s; auto.
Qed.

Lemma nonpos_add_zero (d : float) : nonpos d -> nonpos (d + 0).
Proof.
  rewrite add_comm. apply zero_add_nonpos.
Qed.

Lemma sub_self (x : float) : is_finite x = true -> x - x = 0.
Proof.
  intros F. apply Prim2SF_inj. rewrite sub_spec.
  change (Prim2SF 0) with (S754_zero false).
  destruct (Prim2SF x) as [s|s| |s m e] eqn:E.
  - destruct s; reflexivity.
  - apply Prim2SF_infinity in E. subst x. destruct s; discriminate.
  - apply Prim2SF_nan in E. subst x. discriminate.
  - unfold SF64sub, SFsub. rewrite Z.sub_diag. reflexivity.
Qed.

Lemma opp_add_nonpos (h r : float) :
  posfin r -> (r <=? h) = true -> nonpos (- h + r).
Proof.
  intros (mr & er & Er) L. unfold nonpos.
  rewrite add_spec, opp_spec, Er.
  rewrite FloatAxioms.leb_spec, Er in L.
  pose proof (Prim2SF_valid r) as Vr. rewrite Er in Vr.
  pose proof (Prim2SF_valid h) as Vh.
  destruct (Prim2SF h) as [s|s| |s mh eh]; try (destruct s); try discriminate L.
  - reflexivity.
  - simpl in Vr, Vh.
    pose proof (aligned_le mr mh er eh Vr Vh L) as A.
    change (sf_nonpos
              (binary_normalize prec emax
                 (cond_Zopp true (Zpos (fst (shl_align mh eh (Z.min eh er))))
                  + cond_Zopp false (Zpos (fst (shl_align mr er (Z.min eh er)))))
                 (Z.min eh er) false)).
    match goal with
    | |- sf_nonpos (binary_normalize _ _ ?m ?e _) =>
        destruct (binary_normalize_nonpos prec emax m e) as [Z|S]
    end.
    + simpl cond_Zopp. lia.
    + rewrite Z. exact I.
    + apply sf_signed_nonpos, S.
Qed.

Lemma nonpos_sub_posfin (m r : float) :
  nonpos m -> posfin r -> nonpos (m - r).
Proof.
  unfold nonpos. intros H (mr & er & Er).
  rewrite sub_spec, Er.
  destruct (Prim2SF m) as [s|s| |s mm em]; simpl in H |- *; auto.
  subst s.
  change (sf_nonpos
            (binary_normalize prec emax
               (cond_Zopp true (Zpos (fst (shl_align mm em (Z.min em er))))
                - cond_Zopp false (Zpos (fst (shl_align mr er (Z.min em er)))))
               (Z.min em er) false)).
  apply sf_signed_nonpos, binary_normalize_neg. simpl cond_Zopp. lia.
Qed.

End Binary64.

(** * Facts about [Math.min], [Math.max] and the unit interval *)

Lemma Math_max_nonpos (a b : float) : nonpos a -> nonpos b -> nonpos (Math.max a b).
Proof.
  intros Ha Hb. unfold Math.max.
  rewrite (Binary64.nonpos_not_nan a Ha), (Binary64.nonpos_not_nan b Hb). simpl.
  destruct (a <? b); [assumption|].
  destruct (b <? a); [assumption|].
  destruct (get_sign a); assumption.
Qed.

Lemma Math_min_nonpos (a b : float) : nonpos a -> nonpos b -> nonpos (Math.min a b).
Proof.
  intros Ha Hb. unfold Math.min.
  rewrite (Binary64.nonpos_not_nan a Ha), (Binary64.nonpos_not_nan b Hb). simpl.
  destruct (a <? b); [assumption|].
  destruct (b <? a); [assumption|].
  destruct (get_sign a); assumption.
Qed.

Lemma Math_max_nonpos_zero (x : float) : nonpos x -> Math.max x 0 = 0.
Proof.
  intros H. pose proof (Binary64.nonpos_not_nan x H) as N.
  pose proof (Binary64.nonpos_ltb_zero x H) as L.
  unfold Math.max. rewrite N, L. simpl.
  destruct (x <? 0); [reflexivity|].
  unfold nonpos, sf_nonpos in H. destruct (Prim2SF x) as [s|s| |s m e] eqn:E.
  - apply Binary64.Prim2SF_zero in E. subst x. destruct s; reflexivity.
  - apply Binary64.Prim2SF_infinity in E. subst x s. reflexivity.
  - destruct H.
  - subst s. unfold get_sign, is_zero.
    rewrite FloatAxioms.eqb_spec, E.
    change (Prim2SF zero) with (S754_zero false). simpl.
    rewrite FloatAxioms.ltb_spec, E. reflexivity.
Qed.

Lemma Math_min_smaller (a b : float) :
  is_nan a = false -> is_nan b = false ->
  (Math.min a b = a \/ Math.min a b = b)
  /\ (Math.min a b <=? a) = true /\ (Math.min a b <=? b) = true.
Proof.
  intros Na Nb. unfold Math.min. rewrite Na, Nb. simpl.
  destruct (a <? b) eqn:Lab.
  { auto using Binary64.leb_refl, Binary64.ltb_leb. }
  destruct (b <? a) eqn:Lba.
  { auto using Binary64.leb_refl, Binary64.ltb_leb. }
  destruct (Binary64.leb_total a b Na Nb Lab Lba) as [Hab Hba].
  destruct (get_sign a); auto using Binary64.leb_refl.
Qed.

Lemma in_unit_interval_not_nan (t : float) :
  in_unit_interval t = true -> is_nan t = false.
Proof.
  unfold in_unit_interval. intros H. apply andb_prop in H. destruct H as [H _].
  apply Binary64.leb_not_nan in H. tauto.
Qed.

Lemma in_unit_interval_not_outside (t : float) :
  in_unit_interval t = true -> (t <? 0) || (1 <? t) = false.
Proof.
  unfold in_unit_interval. intros H. apply andb_prop in H. destruct H as [H0 H1].
  rewrite (Binary64.leb_ltb_false _ _ H0), (Binary64.leb_ltb_false _ _ H1). reflexivity.
Qed.

(** * Field access after an assignment *)

Lemma center_set_center (s : Shape) (v : Vector.t) :
  Shape.center (Shape.set_center s v) = v.
Proof. destruct s; reflexivity. Qed.

Lemma velocity_set_center (s : Shape) (v : Vector.t) :
  Shape.velocity (Shape.set_center s v) = Shape.velocity s.
Proof. destruct s; reflexivity. Qed.

(** * The solver *)

(** C1, as the script has it.  When [S = B.sum(A)] does not contain the
    origin, [solveCollisions] casts the relative motion
    [A.velocity - B.velocity] from the origin against [S]; when the hit time
    [h] is below +Infinity, both centers advance by [velocity * (dt * h)],
    and both velocities keep their values: the tangential response is
    commented out in the first variant of the script. *)
Theorem solveCollisions_first_contact (A B : Shape) (dt : float) (S : Shape) :
  Shape.sum B A = Ok S ->
  Shape.contains S Vector.ZERO = false ->
  let relativeMotion := Vector.sub (Shape.velocity A) (Shape.velocity B) in
  let h := Shape.rayCast S Vector.ZERO relativeMotion in
  (h <? Number.POSITIVE_INFINITY) = true ->
  exists A' B' : Shape,
    Shape.solveCollisions A B dt = Ok (A', B')
    /\ A' = Shape.set_center A
              (Vector.add (Shape.center A) (Vector.mul (Shape.velocity A) (dt * h)))
    /\ B' = Shape.set_center B
              (Vector.add (Shape.center B) (Vector.mul (Shape.velocity B) (dt * h)))
    /\ Shape.velocity A' = Shape.velocity A
    /\ Shape.velocity B' = Shape.velocity B.
Proof.
  intros Hsum Hout relativeMotion h Hhit.
  do 2 eexists. split.
  - unfold Shape.solveCollisions. rewrite Hsum. cbn [bind]. rewrite Hout.
    fold relativeMotion. fold h. rewrite Hhit. reflexivity.
  - repeat split; apply velocity_set_center.
Qed.

Lemma solveCollisions_first_contact_witness :
  exists A' B' : Shape,
    Shape.solveCollisions Scene.moving_circle Scene.resting_circle 0.5 = Ok (A', B')
    /\ Shape.center A' = Vector.new 0.5 0
    /\ Shape.center B' = Vector.new 3 0
    /\ Shape.velocity A' = Vector.new 1 0
    /\ Shape.velocity B' = Vector.new 0 0.
Proof.
  destruct (solveCollisions_first_contact Scene.moving_circle Scene.resting_circle 0.5
              (Circle.new (Vector.new 3 0) 2) eq_refl eq_refl eq_refl)
    as (A' & B' & Hrun & HA & HB & HvA & HvB).
  exists A', B'. rewrite HvA, HvB, HA, HB. repeat split; try assumption.
Defined.

(** C1 fails as stated: the moving circle reaches the resting one at
    [h = 1], and after the call its velocity is still (1, 0), not the
    tangential response (-0, 0).  The second variant of the script does
    assign to the velocities, but the value is a number times a [Vector],
    which is the number NaN. *)
Lemma solveCollisions_tangent_counterexample :
  let A := Scene.moving_circle in
  let B := Scene.resting_circle in
  let relativeMotion := Vector.sub (Shape.velocity A) (Shape.velocity B) in
  exists (S A' B' : Shape) (o : Alt.outcome),
    Shape.sum B A = Ok S
    /\ Shape.contains S Vector.ZERO = false
    /\ Shape.rayCast S Vector.ZERO relativeMotion = 1
    /\ Shape.solveCollisions A B 0.5 = Ok (A', B')
    /\ Shape.velocity A' = Vector.new 1 0
    /\ tangent_response (Shape.velocity A) relativeMotion = Vector.new (-0) 0
    /\ Shape.velocity A' <> tangent_response (Shape.velocity A) relativeMotion
    /\ Alt.solveCollisions A B 0.5 = Ok o
    /\ Alt.this_velocity o = Alt.VNumber nan
    /\ Alt.other_velocity o = Alt.VNumber nan.
Proof.
  cbv zeta. do 4 eexists.
  split; [reflexivity|].
  split; [reflexivity|].
  split; [reflexivity|].
  split; [reflexivity|].
  split; [reflexivity|].
  split; [reflexivity|].
  split.
  - intros H. apply (f_equal (fun v => Vector.x v =? 1)) in H. discriminate H.
  - repeat split.
Qed.

(** C2.  When [S = B.sum(A)] contains the origin, [solveCollisions] moves
    the center of [A] by [S.closestPoint(origin)] and changes nothing else:
    the velocity of [A] and the whole of [B] stay as they were.  This holds
    in both variants of the script. *)
Theorem solveCollisions_penetration (A B : Shape) (dt : float) (S : Shape) :
  Shape.contains S Vector.ZERO = true ->
  let p := Shape.closestPoint S Vector.ZERO in
  (Shape.sum B A = Ok S ->
   exists A' : Shape,
     Shape.solveCollisions A B dt = Ok (A', B)
     /\ A' = Shape.set_center A (Vector.add (Shape.center A) p)
     /\ Shape.center A' = Vector.add (Shape.center A) p
     /\ Shape.velocity A' = Shape.velocity A)
  /\ (Alt.sum B A = Ok (Some S) ->
      Alt.solveCollisions A B dt
      = Ok (Alt.Outcome (Vector.add (Shape.center A) p) (Alt.VVector (Shape.velocity A))
              (Shape.center B) (Alt.VVector (Shape.velocity B)))).
Proof.
  intros Hin p. split; intros Hsum.
  - eexists. split; [|split; [reflexivity|]].
    + unfold Shape.solveCollisions. rewrite Hsum. cbn [bind]. rewrite Hin. reflexivity.
    + split; [apply center_set_center | apply velocity_set_center].
  - unfold Alt.solveCollisions. rewrite Hsum. cbn [bind]. rewrite Hin. reflexivity.
Qed.

Lemma solveCollisions_penetration_witness :
  Shape.solveCollisions Scene.moving_circle Scene.overlapping_circle 0.5
  = Ok (CircleShape (Circle.Build (Vector.new (-1) 0) (Vector.new 1 0) 1),
        CircleShape Scene.overlapping_circle)
  /\ Alt.solveCollisions Scene.moving_circle Scene.overlapping_circle 0.5
     = Ok (Alt.Outcome (Vector.new (-1) 0) (Alt.VVector (Vector.new 1 0))
             (Vector.new 1 0) (Alt.VVector (Vector.new 0 2))).
Proof.
  destruct (solveCollisions_penetration Scene.moving_circle Scene.overlapping_circle 0.5
              (Circle.new (Vector.new 1 0) 2) eq_refl) as [H1 H2].
  split.
  - destruct (H1 eq_refl) as (A' & Hrun & HA & _). rewrite Hrun, HA. reflexivity.
  - rewrite (H2 eq_refl). reflexivity.
Defined.

(** * The ray-cast primitives *)

(** What [rayCastEdge] returns once [det] is not zero: +Infinity when one of
    the four comparisons of the script holds, [t1] when none does. *)
Lemma rayCastEdge_nonzero_det (originA endA originB endB : Vector.t) :
  let r := Vector.sub endA originA in
  let s := Vector.sub endB originB in
  let det := Vector.cross r s in
  let dir := Vector.sub originB originA in
  let t1 := Vector.cross dir s / det in
  let t2 := Vector.cross dir r / det in
  (det =? 0) = false ->
  rayCastEdge originA endA originB endB
  = if (t1 <? 0) || (1 <? t1) || ((t2 <? 0) || (1 <? t2))
    then Number.POSITIVE_INFINITY else t1.
Proof.
  intros r s det dir t1 t2 Hdet. unfold rayCastEdge.
  fold r. fold s. fold det. rewrite Hdet. fold dir. fold t1. fold t2.
  destruct ((t1 <? 0) || (1 <? t1)); reflexivity.
Qed.

(** C3, as the script has it.  [rayCastEdge] returns +Infinity when
    [det = cross(endA - originA, endB - originB)] equals 0.  Otherwise, with
    [t1 = cross(dir, s) / det] and [t2 = cross(dir, r) / det]: it returns
    [t1] when both lie in [0, 1]; it returns +Infinity when [t1] or [t2] is
    below 0 or above 1; and in every other case, which is that of a NaN
    among [t1] and [t2] with the other one not outside [0, 1], it returns
    [t1] as well. *)
Theorem rayCastEdge_cases (originA endA originB endB : Vector.t) :
  let r := Vector.sub endA originA in
  let s := Vector.sub endB originB in
  let det := Vector.cross r s in
  let dir := Vector.sub originB originA in
  let t1 := Vector.cross dir s / det in
  let t2 := Vector.cross dir r / det in
  let result := rayCastEdge originA endA originB endB in
  ((det =? 0) = true -> result = Number.POSITIVE_INFINITY)
  /\ ((det =? 0) = false ->
      in_unit_interval t1 = true -> in_unit_interval t2 = true -> result = t1)
  /\ ((det =? 0) = false ->
      (t1 <? 0) || (1 <? t1) || ((t2 <? 0) || (1 <? t2)) = true ->
      result = Number.POSITIVE_INFINITY)
  /\ ((det =? 0) = false ->
      (t1 <? 0) || (1 <? t1) || ((t2 <? 0) || (1 <? t2)) = false ->
      result = t1).
Proof.
  intros r s det dir t1 t2 result. repeat split.
  - intros Hdet. unfold result, rayCastEdge. fold r. fold s. fold det.
    rewrite Hdet. reflexivity.
  - intros Hdet H1 H2. unfold result.
    rewrite (rayCastEdge_nonzero_det originA endA originB endB Hdet).
    fold r s det dir t1 t2.
    rewrite (in_unit_interval_not_outside t1 H1), (in_unit_interval_not_outside t2 H2).
    reflexivity.
  - intros Hdet Hout. unfold result.
    rewrite (rayCastEdge_nonzero_det originA endA originB endB Hdet).
    fold r s det dir t1 t2. rewrite Hout. reflexivity.
  - intros Hdet Hout. unfold result.
    rewrite (rayCastEdge_nonzero_det originA endA originB endB Hdet).
    fold r s det dir t1 t2. rewrite Hout. reflexivity.
Qed.

(** The four cases of [rayCastEdge_cases] on the segment from (0, 0) to
    (2, 0): parallel to it, crossing it in the middle, missing it, and a
    determinant that overflows to NaN. *)
Lemma rayCastEdge_cases_witness :
  rayCastEdge (Vector.new 0 0) (Vector.new 2 0) (Vector.new 0 1) (Vector.new 2 1)
  = Number.POSITIVE_INFINITY
  /\ rayCastEdge (Vector.new 0 0) (Vector.new 2 0) (Vector.new 1 (-1)) (Vector.new 1 1)
     = 0.5
  /\ rayCastEdge (Vector.new 0 0) (Vector.new 2 0) (Vector.new 3 (-1)) (Vector.new 3 1)
     = Number.POSITIVE_INFINITY
  /\ rayCastEdge (Vector.new 0 0) (Vector.new 0x1p600 0x1p600)
       (Vector.new 0 1) (Vector.new 0x1p600 0x1p600)
     = nan.
Proof.
  split; [|split; [|split]].
  - exact (proj1 (rayCastEdge_cases (Vector.new 0 0) (Vector.new 2 0)
                    (Vector.new 0 1) (Vector.new 2 1)) eq_refl).
  - exact (proj1 (proj2 (rayCastEdge_cases (Vector.new 0 0) (Vector.new 2 0)
                           (Vector.new 1 (-1)) (Vector.new 1 1)))
             eq_refl eq_refl eq_refl).
  - exact (proj1 (proj2 (proj2 (rayCastEdge_cases (Vector.new 0 0) (Vector.new 2 0)
                                  (Vector.new 3 (-1)) (Vector.new 3 1))))
             eq_refl eq_refl).
  - exact (proj2 (proj2 (proj2 (rayCastEdge_cases (Vector.new 0 0)
                                  (Vector.new 0x1p600 0x1p600)
                                  (Vector.new 0 1) (Vector.new 0x1p600 0x1p600))))
             eq_refl eq_refl).
Defined.

(** C3 fails as stated: for two segments whose coordinates reach 2^600 the
    determinant is Infinity - Infinity, a NaN.  It is not equal to 0, [t1]
    is NaN and so does not lie in [0, 1], and yet the result is not
    +Infinity: no comparison of the script holds for a NaN, and [t1] is
    returned. *)
Lemma rayCastEdge_nan_counterexample :
  let originA := Vector.new 0 0 in
  let endA := Vector.new 0x1p600 0x1p600 in
  let originB := Vector.new 0 1 in
  let endB := Vector.new 0x1p600 0x1p600 in
  let r := Vector.sub endA originA in
  let s := Vector.sub endB originB in
  let det := Vector.cross r s in
  let t1 := Vector.cross (Vector.sub originB originA) s / det in
  (det =? 0) = false
  /\ in_unit_interval t1 = false
  /\ rayCastEdge originA endA originB endB = nan
  /\ rayCastEdge originA endA originB endB <> Number.POSITIVE_INFINITY.
Proof.
  cbv zeta. repeat split.
  intros H. apply (f_equal is_nan) in H. discriminate H.
Qed.

(** C4.  [rayCastCircle] returns +Infinity when
    [dot(direction, direction) <= Number.EPSILON] or the discriminant is
    negative.  Otherwise, when the discriminant is 0, it returns the single
    root if it lies in [0, 1] and +Infinity if not; and when it is not 0, it
    returns the smaller of the two roots when both lie in [0, 1], the one
    root in [0, 1] when only one does (be it the larger), and +Infinity when
    none does. *)
Theorem rayCastCircle_cases (origin direction center : Vector.t) (radius : float) :
  let a := Vector.dot direction direction in
  let centerToOrigin := Vector.sub origin center in
  let b := 2 * Vector.dot direction centerToOrigin in
  let c := Vector.dot centerToOrigin centerToOrigin - radius * radius in
  let det := b * b - 4 * a * c in
  let t := - b / (2 * a) in
  let t1 := (- b + Math.sqrt det) / (2 * a) in
  let t2 := (- b - Math.sqrt det) / (2 * a) in
  let result := rayCastCircle origin direction center radius in
  ((a <=? Number.EPSILON) = true \/ (det <? 0) = true ->
   result = Number.POSITIVE_INFINITY)
  /\ ((a <=? Number.EPSILON) = false -> (det =? 0) = true ->
      result = if in_unit_interval t then t else Number.POSITIVE_INFINITY)
  /\ ((a <=? Number.EPSILON) = false -> (det <? 0) = false -> (det =? 0) = false ->
      (in_unit_interval t1 = true -> in_unit_interval t2 = true ->
       result = Math.min t1 t2
       /\ (result = t1 \/ result = t2)
       /\ (result <=? t1) = true /\ (result <=? t2) = true)
      /\ (in_unit_interval t1 = true -> in_unit_interval t2 = false -> result = t1)
      /\ (in_unit_interval t1 = false -> in_unit_interval t2 = true -> result = t2)
      /\ (in_unit_interval t1 = false -> in_unit_interval t2 = false ->
          result = Number.POSITIVE_INFINITY)).
Proof.
  intros a centerToOrigin b c det t t1 t2 result.
  assert (E : result
              = if (a <=? Number.EPSILON) || (det <? 0) then Number.POSITIVE_INFINITY
                else if det =? 0 then
                  if in_unit_interval t then t else Number.POSITIVE_INFINITY
                else if in_unit_interval t1 then
                  if in_unit_interval t2 then Math.min t1 t2 else t1
                else if in_unit_interval t2 then t2
                else Number.POSITIVE_INFINITY) by reflexivity.
  split; [|split].
  - intros [H|H]; rewrite E, H; [reflexivity|].
    rewrite orb_true_r. reflexivity.
  - intros Ha Hdet. rewrite E, Ha, (Binary64.eqb_ltb_false _ _ Hdet), Hdet. reflexivity.
  - intros Ha Hneg Hdet. rewrite Ha, Hneg, Hdet in E. simpl in E.
    split; [|split; [|split]].
    + intros H1 H2. rewrite E, H1, H2.
      split; [reflexivity|].
      apply (Math_min_smaller t1 t2); apply in_unit_interval_not_nan; assumption.
    + intros H1 H2. rewrite E, H1, H2. reflexivity.
    + intros H1 H2. rewrite E, H1, H2. reflexivity.
    + intros H1 H2. rewrite E, H1, H2. reflexivity.
Qed.

(** Every case of [rayCastCircle_cases] on a concrete ray: a zero
    direction, a miss, a tangent, a ray through the circle, a ray that
    starts inside it, a ray that ends on it, and a ray that stops short. *)
Lemma rayCastCircle_cases_witness :
  rayCastCircle (Vector.new 0 0) (Vector.new 0 0) (Vector.new 2 0) 1
  = Number.POSITIVE_INFINITY
  /\ rayCastCircle (Vector.new 0 0) (Vector.new 1 0) (Vector.new 0 5) 1
     = Number.POSITIVE_INFINITY
  /\ rayCastCircle (Vector.new 0 0) (Vector.new 2 0) (Vector.new 1 1) 1 = 0.5
  /\ rayCastCircle (Vector.new 0 0) (Vector.new 4 0) (Vector.new 2 0) 1 = 0.25
  /\ rayCastCircle (Vector.new 0 0) (Vector.new 2 0) (Vector.new 0 0) 1 = 0.5
  /\ rayCastCircle (Vector.new 0 0) (Vector.new 1 0) (Vector.new 3 0) 2 = 1
  /\ rayCastCircle (Vector.new 0 0) (Vector.new 1 0) (Vector.new 5 0) 1
     = Number.POSITIVE_INFINITY.
Proof.
  repeat apply conj.
  - exact (proj1 (rayCastCircle_cases (Vector.new 0 0) (Vector.new 0 0) (Vector.new 2 0) 1)
             (or_introl eq_refl)).
  - exact (proj1 (rayCastCircle_cases (Vector.new 0 0) (Vector.new 1 0) (Vector.new 0 5) 1)
             (or_intror eq_refl)).
  - exact (proj1 (proj2 (rayCastCircle_cases (Vector.new 0 0) (Vector.new 2 0)
                           (Vector.new 1 1) 1)) eq_refl eq_refl).
  - exact (proj1 (proj1 (proj2 (proj2 (rayCastCircle_cases (Vector.new 0 0) (Vector.new 4 0)
                                         (Vector.new 2 0) 1)) eq_refl eq_refl eq_refl)
                    eq_refl eq_refl)).
  - exact (proj1 (proj2 (proj2 (proj2 (rayCastCircle_cases (Vector.new 0 0) (Vector.new 2 0)
                                         (Vector.new 0 0) 1)) eq_refl eq_refl eq_refl))
             eq_refl eq_refl).
  - exact (proj1 (proj2 (proj2 (proj2 (proj2 (rayCastCircle_cases (Vector.new 0 0)
                                                (Vector.new 1 0) (Vector.new 3 0) 2))
                                         eq_refl eq_refl eq_refl)))
             eq_refl eq_refl).
  - exact (proj2 (proj2 (proj2 (proj2 (proj2 (rayCastCircle_cases (Vector.new 0 0)
                                                (Vector.new 1 0) (Vector.new 5 0) 1))
                                         eq_refl eq_refl eq_refl)))
             eq_refl eq_refl).
Defined.

(** * Minkowski sums *)

Lemma sum_has_formula (A B : Shape) :
  has_sum_formula A B = true -> exists S : Shape, Shape.sum A B = Ok S.
Proof.
  destruct A, B; simpl; intros H; try discriminate H; eexists; reflexivity.
Qed.

Lemma sum_center (A B S : Shape) :
  Shape.sum A B = Ok S ->
  Shape.center S = Vector.sub (Shape.center A) (Shape.center B).
Proof.
  destruct A, B; simpl; intros H; try discriminate H;
    injection H as <-; reflexivity.
Qed.

(** C5.  For each of the eight pairs of classes that [sum] supports, the
    shape [A.sum(B)] exists and its center is [A.center - B.center]. *)
Theorem sum_center_is_difference (A B : Shape) :
  has_sum_formula A B = true ->
  exists S : Shape,
    Shape.sum A B = Ok S
    /\ Shape.center S = Vector.sub (Shape.center A) (Shape.center B).
Proof.
  intros H. destruct (sum_has_formula A B H) as [S HS].
  exists S. split; [exact HS | exact (sum_center A B S HS)].
Qed.

Lemma sum_center_is_difference_witness :
  exists S : Shape,
    Shape.sum Scene.demo_box Scene.resting_circle = Ok S
    /\ Shape.center S = Vector.new (-3) 0.
Proof.
  exact (sum_center_is_difference Scene.demo_box Scene.resting_circle eq_refl).
Defined.

(** C8.  A pair of classes without a formula is a pair of rounded
    rectangles.  For it [sum] throws a message that names both classes, and
    each caller of [sum] ([intersects], [intersect], [solveCollisions])
    ends with the same exception instead of a result. *)
Theorem sum_not_implemented (A B : Shape) :
  has_sum_formula A B = false ->
  let e := Thrown ("sum is not implemented for " ++ Shape.constructor_name A
                   ++ " and " ++ Shape.constructor_name B) in
  Shape.constructor_name A = "RoundRect"%string
  /\ Shape.constructor_name B = "RoundRect"%string
  /\ Shape.sum A B = Throw e
  /\ Shape.intersects A B = Throw e
  /\ Shape.intersect A B = Throw e
  /\ forall dt : float, Shape.solveCollisions B A dt = Throw e.
Proof.
  destruct A, B; simpl; intros H; try discriminate H.
  repeat split.
Qed.

Lemma sum_not_implemented_witness :
  Shape.sum Scene.demo_round_rect Scene.fat_corners
  = Throw (Thrown "sum is not implemented for RoundRect and RoundRect")
  /\ Shape.solveCollisions Scene.fat_corners Scene.demo_round_rect 0.5
     = Throw (Thrown "sum is not implemented for RoundRect and RoundRect").
Proof.
  destruct (sum_not_implemented Scene.demo_round_rect Scene.fat_corners eq_refl)
    as (_ & _ & Hsum & _ & _ & Hsolve).
  split; [exact Hsum | exact (Hsolve 0.5)].
Defined.

(** C9.  For two circles, and for a box and a rounded rectangle, [A.sum(B)]
    and [B.sum(A)] exist and have the same [radius]: the sum of the two
    radii in either order, and the radius of the rounded rectangle.  The two
    fields hold the same value, so [==] between them is true unless that
    value is NaN. *)
Theorem sum_radius_symmetric :
  (forall a b : Circle.t,
      exists (S S' : Shape) (r r' : float),
        Shape.sum a b = Ok S /\ Shape.sum b a = Ok S'
        /\ Shape.radius S = Some r /\ Shape.radius S' = Some r'
        /\ r = Circle.radius a + Circle.radius b
        /\ r' = r
        /\ (is_nan r = false -> (r' =? r) = true))
  /\ (forall (a : AABB.t) (b : RoundRect.t),
         exists (S S' : Shape) (r r' : float),
           Shape.sum a b = Ok S /\ Shape.sum b a = Ok S'
           /\ Shape.radius S = Some r /\ Shape.radius S' = Some r'
           /\ r = RoundRect.radius b
           /\ r' = r
           /\ (is_nan r = false -> (r' =? r) = true)).
Proof.
  split.
  - intros a b. do 4 eexists.
    do 5 (split; [reflexivity|]).
    rewrite (Binary64.add_comm (Circle.radius b)).
    split; [reflexivity | apply Binary64.eqb_refl].
  - intros a b. do 4 eexists.
    do 5 (split; [reflexivity|]).
    split; [reflexivity | apply Binary64.eqb_refl].
Qed.

Lemma sum_radius_symmetric_witness :
  exists (S S' : Shape) (r r' : float),
    Shape.sum Scene.moving_circle Scene.resting_circle = Ok S
    /\ Shape.sum Scene.resting_circle Scene.moving_circle = Ok S'
    /\ Shape.radius S = Some r /\ Shape.radius S' = Some r'
    /\ r = 2
    /\ r' = r
    /\ (is_nan r = false -> (r' =? r) = true).
Proof.
  exact (proj1 sum_radius_symmetric Scene.moving_circle Scene.resting_circle).
Defined.

(** * The discrete queries *)

(** C10.  When [A.sum(B)] exists, [intersect] returns a vector exactly when
    [intersects] returns true, and that vector is
    [A.sum(B).closestPoint(origin)]. *)
Theorem intersect_iff_intersects (A B S : Shape) :
  Shape.sum A B = Ok S ->
  exists (b : bool) (o : option Vector.t),
    Shape.intersects A B = Ok b
    /\ Shape.intersect A B = Ok o
    /\ (o <> None <-> b = true)
    /\ (forall v : Vector.t, o = Some v -> v = Shape.closestPoint S Vector.ZERO).
Proof.
  intros Hsum. unfold Shape.intersects, Shape.intersect. rewrite Hsum. cbn [bind].
  destruct (Shape.contains S Vector.ZERO); do 2 eexists;
    (split; [reflexivity|]); (split; [reflexivity|]); split.
  - split; [reflexivity | discriminate].
  - intros v H. injection H as <-. reflexivity.
  - split; [congruence | discriminate].
  - discriminate.
Qed.

Lemma intersect_iff_intersects_witness :
  exists (b : bool) (o : option Vector.t),
    Shape.intersects Scene.moving_circle Scene.overlapping_circle = Ok b
    /\ Shape.intersect Scene.moving_circle Scene.overlapping_circle = Ok o
    /\ (o <> None <-> b = true)
    /\ (forall v : Vector.t,
           o = Some v ->
           v = Shape.closestPoint (Circle.new (Vector.new (-1) 0) 2) Vector.ZERO).
Proof.
  exact (intersect_iff_intersects Scene.moving_circle Scene.overlapping_circle
           (Circle.new (Vector.new (-1) 0) 2) eq_refl).
Defined.

(** * Containment and closest points *)

(** C6, as the script has it.  A rounded rectangle with [radius > 0],
    [hw > 0] and [hh > 0] contains its own center [(center.x, center.y)]
    when, in addition, the radius does not exceed the half extents
    ([radius <= hw] and [radius <= hh]) and the radius and the center
    coordinates are finite numbers. *)
Theorem RoundRect_contains_own_center (this : RoundRect.t) :
  (0 <? RoundRect.radius this) = true ->
  (0 <? RoundRect.hw this) = true ->
  (0 <? RoundRect.hh this) = true ->
  (RoundRect.radius this <=? RoundRect.hw this) = true ->
  (RoundRect.radius this <=? RoundRect.hh this) = true ->
  (RoundRect.radius this <? infinity) = true ->
  is_finite (Vector.x (RoundRect.center this)) = true ->
  is_finite (Vector.y (RoundRect.center this)) = true ->
  RoundRect.contains this
    (Vector.new (Vector.x (RoundRect.center this)) (Vector.y (RoundRect.center this)))
  = true.
Proof.
  destruct this as [[cx cy] v hw hh r].
  cbn [RoundRect.center RoundRect.hw RoundRect.hh RoundRect.radius Vector.x Vector.y].
  intros R0 _ _ Lw Lh Rf Fx Fy.
  pose proof (Binary64.posfin_intro r R0 Rf) as Pr.
  unfold RoundRect.contains, Vector.sub, Vector.add, Vector.abs, Vector.max, Vector.ZERO.
  cbn [RoundRect.center RoundRect.hw RoundRect.hh RoundRect.radius Vector.x Vector.y].
  rewrite (Binary64.sub_self cx Fx), (Binary64.sub_self cy Fy).
  change (Math.abs 0) with 0.
  pose proof (Binary64.zero_add_nonpos _ (Binary64.opp_add_nonpos hw r Pr Lw)) as Qx.
  pose proof (Binary64.zero_add_nonpos _ (Binary64.opp_add_nonpos hh r Pr Lh)) as Qy.
  set (qx := 0 + (- hw + r)) in *. set (qy := 0 + (- hh + r)) in *.
  rewrite (Math_max_nonpos_zero qx Qx), (Math_max_nonpos_zero qy Qy).
  change (Vector.length (Vector.new 0 0)) with 0.
  apply Binary64.nonpos_leb_zero, Binary64.nonpos_sub_posfin; [|assumption].
  apply Binary64.nonpos_add_zero, Math_min_nonpos; [|exact Binary64.nonpos_zero].
  apply Math_max_nonpos; assumption.
Qed.

Lemma RoundRect_contains_own_center_witness :
  RoundRect.contains Scene.demo_round_rect (Vector.new 0 0) = true.
Proof.
  exact (RoundRect_contains_own_center Scene.demo_round_rect
           eq_refl eq_refl eq_refl eq_refl eq_refl eq_refl eq_refl eq_refl).
Defined.

(** C6 fails as stated: with [radius = 10] and [hw = hh = 1], all three
    positive, the center is at distance [sqrt(9^2 + 9^2) - 10 > 0] by the
    formula of [contains], which returns false.  It returns false as well
    for a center at Infinity and for an infinite radius, where the formula
    meets a NaN. *)
Lemma RoundRect_contains_center_counterexample :
  ((0 <? RoundRect.radius Scene.fat_corners) = true
   /\ (0 <? RoundRect.hw Scene.fat_corners) = true
   /\ (0 <? RoundRect.hh Scene.fat_corners) = true
   /\ RoundRect.contains Scene.fat_corners
        (Vector.new (Vector.x (RoundRect.center Scene.fat_corners))
           (Vector.y (RoundRect.center Scene.fat_corners)))
      = false)
  /\ RoundRect.contains (RoundRect.new (Vector.new infinity 0) 50 50 20)
       (Vector.new infinity 0) = false
  /\ RoundRect.contains (RoundRect.new (Vector.new 0 0) infinity infinity infinity)
       (Vector.new 0 0) = false.
Proof.
  repeat split.
Qed.

(** C7 at two points outside a shape.  The box of half extents 50 around
    the origin does not contain (100, 100); [closestPoint] answers
    (50, 100), which the box does not contain either: it lies 50 units
    beyond the corner (50, 50).  The rounded rectangle of half extents 50 and radius
    20 does not contain (100, 30); there neither branch of [closestPoint]
    applies and the point itself is returned. *)
Theorem closestPoint_outside_off_boundary :
  (AABB.contains Scene.demo_box (Vector.new 100 100) = false
   /\ AABB.closestPoint Scene.demo_box (Vector.new 100 100) = Vector.new 50 100
   /\ AABB.contains Scene.demo_box (Vector.new 50 100) = false
   /\ AABB.bottom Scene.demo_box = 50)
  /\ (RoundRect.contains Scene.demo_round_rect (Vector.new 100 30) = false
      /\ RoundRect.closestPoint Scene.demo_round_rect (Vector.new 100 30)
         = Vector.new 100 30
      /\ RoundRect.right Scene.demo_round_rect = 50).
Proof.
  repeat split.
Qed.

(** * More facts about binary64 arithmetic *)

Module Binary64Laws.

Lemma SFleb_key (x y : spec_float) :
  SFleb x y = true
  <-> x <> S754_nan /\ y <> S754_nan /\ key_le (sf_key x) (sf_key y).
Proof.
  unfold SFleb.
  destruct x as [sx|sx| |sx mx ex], y as [sy|sy| |sy my ey];
    try destruct sx; try destruct sy; simpl;
    try (split; [intros H; try discriminate H; repeat split; try congruence; lia
                | intros (H1 & H2 & H3); try congruence; try reflexivity; lia]).
  all: change (PosDef.Pos.compare_cont Eq mx my) with (Pos.compare mx my).
  all: destruct (Z.compare_spec ex ey) as [E|E|E];
    try destruct (Pos.compare_spec mx my) as [F|F|F]; simpl;
    (split; [intros H; try discriminate H; repeat split; try congruence; lia
            | intros (H1 & H2 & H3); try reflexivity; lia]).
Qed.

Lemma leb_trans (x y z : float) :
  (x <=? y) = true -> (y <=? z) = true -> (x <=? z) = true.
Proof.
  rewrite !FloatAxioms.leb_spec, !SFleb_key.
  intros (Hx & Hy & H1) (_ & Hz & H2). repeat split; try assumption.
  destruct (sf_key (Prim2SF x)) as [[a1 a2] a3], (sf_key (Prim2SF y)) as [[b1 b2] b3],
    (sf_key (Prim2SF z)) as [[c1 c2] c3].
  simpl in *. lia.
Qed.



Lemma not_ltb_leb (x y : float) :
  is_nan x = false -> is_nan y = false -> (y <? x) = false -> (x <=? y) = true.
Proof.
  intros Hx Hy. Binary64.by_compare.
  rewrite (Binary64.SFcompare_antisym (Prim2SF x) (Prim2SF y)).
  destruct (SFcompare (Prim2SF x) (Prim2SF y)) as [[]|] eqn:E; simpl; try congruence.
  intros _. exfalso.
  assert (Prim2SF x <> S754_nan) by (intros F; apply Binary64.is_nan_spec in F; congruence).
  assert (Prim2SF y <> S754_nan) by (intros F; apply Binary64.is_nan_spec in F; congruence).
  destruct (Prim2SF x), (Prim2SF y); simpl in E; congruence.
Qed.

Lemma ltb_not_nan (x y : float) :
  (x <? y) = true -> is_nan x = false /\ is_nan y = false.
Proof.
  intros H. apply Binary64.leb_not_nan, Binary64.ltb_leb, H.
Qed.

Lemma ltb_leb_trans (x y z : float) :
  (x <? y) = true -> (y <=? z) = true -> (x <? z) = true.
Proof.
  intros Hxy Hyz.
  destruct (ltb_not_nan _ _ Hxy) as [Nx _].
  destruct (Binary64.leb_not_nan _ _ Hyz) as [_ Nz].
  destruct (x <? z) eqn:E; [reflexivity|].
  pose proof (not_ltb_leb z x Nz Nx E) as Hzx.
  pose proof (Binary64.leb_ltb_false _ _ (leb_trans _ _ _ Hyz Hzx)) as F.
  congruence.
Qed.

Lemma leb_ltb_trans (x y z : float) :
  (x <=? y) = true -> (y <? z) = true -> (x <? z) = true.
Proof.
  intros Hxy Hyz.
  destruct (Binary64.leb_not_nan _ _ Hxy) as [Nx _].
  destruct (ltb_not_nan _ _ Hyz) as [_ Nz].
  destruct (x <? z) eqn:E; [reflexivity|].
  pose proof (not_ltb_leb z x Nz Nx E) as Hzx.
  pose proof (Binary64.leb_ltb_false _ _ (leb_trans _ _ _ Hzx Hxy)) as F.
  congruence.
Qed.

Lemma ltb_trans (x y z : float) :
  (x <? y) = true -> (y <? z) = true -> (x <? z) = true.
Proof.
  intros Hxy Hyz. exact (ltb_leb_trans _ _ _ Hxy (Binary64.ltb_leb _ _ Hyz)).
Qed.

(** ** NaN absorbs *)

Lemma add_nan_r (x : float) : x + nan = nan.
Proof.
  apply Prim2SF_inj. rewrite add_spec. change (Prim2SF nan) with S754_nan.
  destruct (Prim2SF x); reflexivity.
Qed.

Lemma add_nan_l (x : float) : nan + x = nan.
Proof. rewrite Binary64.add_comm. apply add_nan_r. Qed.

Lemma sub_nan_r (x : float) : x - nan = nan.
Proof.
  apply Prim2SF_inj. rewrite sub_spec. change (Prim2SF nan) with S754_nan.
  destruct (Prim2SF x); reflexivity.
Qed.

Lemma sub_nan_l (x : float) : nan - x = nan.
Proof.
  apply Prim2SF_inj. rewrite sub_spec. change (Prim2SF nan) with S754_nan.
  reflexivity.
Qed.

Lemma mul_nan_r (x : float) : x * nan = nan.
Proof.
  apply Prim2SF_inj. rewrite mul_spec. change (Prim2SF nan) with S754_nan.
  destruct (Prim2SF x); reflexivity.
Qed.

Lemma leb_nan_l (x : float) : (nan <=? x) = false.
Proof. Binary64.by_compare. reflexivity. Qed.

Lemma ltb_nan_r (x : float) : (x <? nan) = false.
Proof.
  Binary64.by_compare. change (Prim2SF nan) with S754_nan.
  destruct (Prim2SF x); reflexivity.
Qed.

(** ** Multiplication is commutative *)

Lemma SFmul_comm (x y : spec_float) : SF64mul x y = SF64mul y x.
Proof.
  unfold SF64mul, SFmul.
  destruct x as [sx|sx| |sx mx ex], y as [sy|sy| |sy my ey];
    try rewrite (xorb_comm sy sx); try reflexivity.
  change (PosDef.Pos.mul my mx) with (Pos.mul my mx).
  rewrite (Pos.mul_comm my mx), (Z.add_comm ey ex). reflexivity.
Qed.

Lemma mul_comm (x y : float) : x * y = y * x.
Proof. apply Prim2SF_inj. rewrite !mul_spec. apply SFmul_comm. Qed.

(** ** Opposites *)

Lemma opp_involutive (x : float) : - - x = x.
Proof.
  apply Prim2SF_inj. rewrite !opp_spec.
  destruct (Prim2SF x) as [s|s| |s m e]; simpl; try rewrite negb_involutive; reflexivity.
Qed.

Lemma abs_opp (x : float) : abs (- x) = abs x.
Proof.
  apply Prim2SF_inj. rewrite !abs_spec, opp_spec.
  destruct (Prim2SF x); reflexivity.
Qed.

Lemma mul_opp_opp (x y : float) : (- x) * (- y) = x * y.
Proof.
  apply Prim2SF_inj. rewrite !mul_spec, !opp_spec. unfold SF64mul, SFmul.
  destruct (Prim2SF x) as [sx|sx| |sx mx ex], (Prim2SF y) as [sy|sy| |sy my ey];
    simpl; try destruct sx; try destruct sy; reflexivity.
Qed.

Lemma mul_opp_r (x y : float) : x * (- y) = - (x * y).
Proof.
  apply Prim2SF_inj. rewrite opp_spec, !mul_spec, opp_spec. unfold SF64mul, SFmul.
  destruct (Prim2SF x) as [sx|sx| |sx mx ex], (Prim2SF y) as [sy|sy| |sy my ey];
    simpl; repeat match goal with b : bool |- _ => destruct b end; try reflexivity.
  all: unfold binary_round_aux.
  all: destruct (shr_fexp prec emax _ _ _) as [mrs' e'].
  all: destruct (shr_fexp prec emax _ _ _) as [mrs'' e''].
  all: destruct (shr_m mrs''); simpl; try reflexivity.
  all: match goal with |- context [if ?c then _ else _] => destruct c end; reflexivity.
Qed.

Lemma binary_normalize_opp (m e : Z) :
  sf_mirror (binary_normalize prec emax m e false) (binary_normalize prec emax (- m) e false).
Proof.
  unfold sf_mirror. destruct m as [|p|p]; simpl.
  - right. split; reflexivity.
  - left. unfold binary_round.
    destruct (shl_align _ _ _) as [mz ez]. unfold binary_round_aux.
    destruct (shr_fexp _ _ _ _ _) as [mrs' e'].
    destruct (shr_fexp _ _ _ _ _) as [mrs'' e''].
    destruct (shr_m mrs''); simpl; try reflexivity.
    match goal with |- context [if ?c then _ else _] => destruct c end; reflexivity.
  - left. unfold binary_round.
    destruct (shl_align _ _ _) as [mz ez]. unfold binary_round_aux.
    destruct (shr_fexp _ _ _ _ _) as [mrs' e'].
    destruct (shr_fexp _ _ _ _ _) as [mrs'' e''].
    destruct (shr_m mrs''); simpl; try reflexivity.
    match goal with |- context [if ?c then _ else _] => destruct c end; reflexivity.
Qed.


(** ** Mirrored values *)

(** Closes a goal [sf_mirror u v] on values that compute. *)
Ltac mirror_by_cases :=
  unfold sf_mirror; simpl;
  repeat match goal with b : bool |- _ => destruct b end;
  first [ left; reflexivity | right; split; reflexivity ].

(** Brings a sum or difference of two finite values to [binary_normalize]. *)
Ltac mirror_normalize :=
  match goal with
  | |- sf_mirror (binary_normalize _ _ ?m ?e _) (binary_normalize _ _ ?m' ?e' _) =>
      replace e' with e by (try reflexivity; apply Z.min_comm);
      replace m' with (- m)%Z
        by (repeat match goal with b : bool |- _ => destruct b end;
            simpl cond_Zopp; try rewrite (Z.min_comm _ _); lia);
      apply binary_normalize_opp
  end.

Lemma SFsub_swap (x y : spec_float) : sf_mirror (SF64sub x y) (SF64sub y x).
Proof.
  destruct x as [sx|sx| |sx mx ex], y as [sy|sy| |sy my ey]; try mirror_by_cases.
  unfold SF64sub, SFsub. rewrite (Z.min_comm ey ex). mirror_normalize.
Qed.

Lemma SFsub_add_opp (x h : spec_float) :
  sf_mirror (SF64sub x h) (SF64add (SFopp x) h).
Proof.
  destruct x as [sx|sx| |sx mx ex], h as [sh|sh| |sh mh eh]; try mirror_by_cases.
  unfold SF64sub, SFsub, SF64add, SFadd, SFopp. mirror_normalize.
Qed.

Lemma SFadd_sub_opp (x h : spec_float) :
  sf_mirror (SF64add x h) (SF64sub (SFopp x) h).
Proof.
  destruct x as [sx|sx| |sx mx ex], h as [sh|sh| |sh mh eh]; try mirror_by_cases.
  unfold SF64sub, SFsub, SF64add, SFadd, SFopp. mirror_normalize.
Qed.

Lemma sub_swap (x y : float) : mirror (x - y) (y - x).
Proof. unfold mirror. rewrite !sub_spec. apply SFsub_swap. Qed.

Lemma mirror_sym (u v : float) : mirror u v -> mirror v u.
Proof.
  unfold mirror, sf_mirror. intros [H|[H1 H2]].
  - left. rewrite H. destruct (Prim2SF u); simpl; rewrite ?negb_involutive; reflexivity.
  - right. split; assumption.
Qed.

(** The two ways a mirrored pair arises, on floats. *)
Lemma mirror_cases (u v : float) : mirror u v -> v = - u \/ (u = 0 /\ v = 0).
Proof.
  unfold mirror, sf_mirror. intros [H|[H1 H2]].
  - left. apply Prim2SF_inj. rewrite opp_spec. exact H.
  - right. split; apply Prim2SF_inj; assumption.
Qed.

Lemma mirror_abs (u v : float) : mirror u v -> abs v = abs u.
Proof.
  intros H. destruct (mirror_cases u v H) as [->|[-> ->]];
    [apply abs_opp | reflexivity].
Qed.

Lemma mirror_square (u v : float) : mirror u v -> v * v = u * u.
Proof.
  intros H. destruct (mirror_cases u v H) as [->|[-> ->]];
    [apply mul_opp_opp | reflexivity].
Qed.

Lemma zero_sub (z : float) : mirror z (0 - z).
Proof.
  unfold mirror. rewrite sub_spec. change (Prim2SF 0) with (S754_zero false).
  destruct (Prim2SF z) as [s|s| |s m e]; mirror_by_cases.
Qed.

(** The differences of the origin and two mirrored values are mirrored. *)
Lemma mirror_zero_sub (u v : float) : mirror u v -> mirror (0 - u) (0 - v).
Proof.
  unfold mirror. rewrite !sub_spec. change (Prim2SF 0) with (S754_zero false).
  intros [H|[H1 H2]].
  - rewrite H. destruct (Prim2SF u) as [s|s| |s m e]; mirror_by_cases.
  - rewrite H1, H2. mirror_by_cases.
Qed.

Lemma mirror_sub_add (u v h : float) : mirror u v -> mirror (u - h) (v + h).
Proof.
  unfold mirror. rewrite sub_spec, add_spec. intros [H|[H1 H2]].
  - rewrite H. apply SFsub_add_opp.
  - rewrite H1, H2. destruct (Prim2SF h) as [s|s| |s m e]; mirror_by_cases.
Qed.

Lemma mirror_add_sub (u v h : float) : mirror u v -> mirror (u + h) (v - h).
Proof.
  unfold mirror. rewrite sub_spec, add_spec. intros [H|[H1 H2]].
  - rewrite H. apply SFadd_sub_opp.
  - rewrite H1, H2. destruct (Prim2SF h) as [s|s| |s m e]; mirror_by_cases.
Qed.

Lemma mirror_leb_zero (u v : float) :
  mirror u v -> (u <=? 0) = (0 <=? v) /\ (0 <=? u) = (v <=? 0).
Proof.
  unfold mirror, sf_mirror. Binary64.by_compare.
  change (Prim2SF 0) with (S754_zero false).
  intros [H|[H1 H2]].
  - rewrite H. destruct (Prim2SF u) as [s|s| |s m e]; simpl;
      try destruct s; split; reflexivity.
  - rewrite H1, H2. split; reflexivity.
Qed.

Lemma opp_add_self (p : float) : is_finite p = true -> - p + p = 0.
Proof.
  intros F. apply Prim2SF_inj. rewrite add_spec, opp_spec.
  change (Prim2SF 0) with (S754_zero false).
  destruct (Prim2SF p) as [s|s| |s m e] eqn:E.
  - destruct s; reflexivity.
  - apply Binary64.Prim2SF_infinity in E. subst p. destruct s; discriminate.
  - apply Binary64.Prim2SF_nan in E. subst p. discriminate.
  - unfold SF64add, SFadd, SFopp.
    replace (cond_Zopp (negb s) (Z.pos (fst (shl_align m e (Z.min e e))))
             + cond_Zopp s (Z.pos (fst (shl_align m e (Z.min e e)))))%Z with 0%Z
      by (generalize (Z.pos (fst (shl_align m e (Z.min e e)))); intros M;
          destruct s; unfold cond_Zopp; simpl negb; cbv iota; lia).
    reflexivity.
Qed.

(** Zero times a quotient by zero is NaN: the quotient is an infinity or
    NaN. *)
Lemma zero_mul_div_zero (r : float) : 0 * (r / 0) = nan.
Proof.
  apply Prim2SF_inj. rewrite mul_spec, div_spec.
  change (Prim2SF 0) with (S754_zero false). change (Prim2SF nan) with S754_nan.
  destruct (Prim2SF r) as [s|s| |s m e]; reflexivity.
Qed.

(** The product of +0 and a finite number is a zero. *)
Lemma zero_mul_finite (x : float) : is_finite x = true -> (0 * x =? 0) = true.
Proof.
  intros F. Binary64.by_compare. rewrite mul_spec.
  change (Prim2SF 0) with (S754_zero false).
  destruct (Prim2SF x) as [s|s| |s m e] eqn:E.
  - reflexivity.
  - apply Binary64.Prim2SF_infinity in E. subst x. destruct s; discriminate.
  - apply Binary64.Prim2SF_nan in E. subst x. discriminate.
  - reflexivity.
Qed.

(** The difference of two zeros is a zero. *)
Lemma zero_sub_zero (u v : float) :
  (u =? 0) = true -> (v =? 0) = true -> (u - v =? 0) = true.
Proof.
  Binary64.by_compare. rewrite sub_spec.
  change (Prim2SF 0) with (S754_zero false).
  destruct (Prim2SF u) as [s|s| |s m e], (Prim2SF v) as [s'|s'| |s' m' e'];
    simpl; repeat match goal with b : bool |- _ => destruct b end;
    intros; try discriminate; reflexivity.
Qed.

(** Adding +0 to a finite number and taking the number away gives +0. *)
Lemma add_zero_sub (x : float) : is_finite x = true -> x + 0 - x = 0.
Proof.
  intros F. apply Prim2SF_inj. rewrite sub_spec, add_spec.
  change (Prim2SF 0) with (S754_zero false).
  destruct (Prim2SF x) as [s|s| |s m e] eqn:E.
  - destruct s; reflexivity.
  - apply Binary64.Prim2SF_infinity in E. subst x. destruct s; discriminate.
  - apply Binary64.Prim2SF_nan in E. subst x. discriminate.
  - unfold SF64add, SFadd, SF64sub, SFsub. rewrite Z.sub_diag. reflexivity.
Qed.

(** ** Square roots are not negative *)

Lemma sqrt_nonneg (x : float) : is_nan (sqrt x) = true \/ (0 <=? sqrt x) = true.
Proof.
  destruct (is_nan (sqrt x)) eqn:N; [left; reflexivity | right].
  assert (Hn : Prim2SF (sqrt x) <> S754_nan)
    by (intros E; apply Binary64.is_nan_spec in E; congruence).
  Binary64.by_compare. change (Prim2SF 0) with (S754_zero false).
  rewrite sqrt_spec in *. unfold SF64sqrt, SFsqrt in *.
  destruct (Prim2SF x) as [s|s| |s m e]; try destruct s; try reflexivity;
    try (exfalso; apply Hn; reflexivity).
  destruct (SFsqrt_core_binary prec emax (Z.pos m) e) as [[mz ez] lz] eqn:C.
  assert (Hm : (0 <= mz)%Z).
  { unfold SFsqrt_core_binary in C.
    destruct (Z.sqrtrem _) as [q r] eqn:Q in C. injection C as <- _ _.
    apply (f_equal fst) in Q. rewrite Z.sqrtrem_sqrt in Q. simpl in Q. subst q.
    apply Z.sqrt_nonneg. }
  pose proof (Binary64.binary_round_aux_signed prec emax false mz ez lz Hm) as S.
  destruct (binary_round_aux prec emax false mz ez lz) as [s'|s'| |s' m' e'];
    simpl in S; try subst s'; try reflexivity; contradiction.
Qed.

End Binary64Laws.

(** * Vector algebra *)

(** X1.  [Vector.add] and [Vector.dot] do not depend on the order of their
    arguments. *)
Theorem Vector_add_dot_commute (a b : Vector.t) :
  Vector.add a b = Vector.add b a /\ Vector.dot a b = Vector.dot b a.
Proof.
  unfold Vector.add, Vector.dot. split.
  - rewrite (Binary64.add_comm (Vector.x a)), (Binary64.add_comm (Vector.y a)).
    reflexivity.
  - rewrite (Binary64Laws.mul_comm (Vector.x a)), (Binary64Laws.mul_comm (Vector.y a)).
    reflexivity.
Qed.

(** X2.  [Vector.cross] is antisymmetric: [cross(b, a)] is the opposite of
    [cross(a, b)], or both are +0. *)
Theorem Vector_cross_antisymmetric (a b : Vector.t) :
  Vector.cross b a = - Vector.cross a b
  \/ (Vector.cross a b = 0 /\ Vector.cross b a = 0).
Proof.
  apply Binary64Laws.mirror_cases. unfold Vector.cross.
  rewrite (Binary64Laws.mul_comm (Vector.x b)), (Binary64Laws.mul_comm (Vector.y b)).
  apply Binary64Laws.sub_swap.
Qed.

(** X3.  The [tangent] of a vector has the length of the vector, and is
    perpendicular to it: their [dot] product is 0 whenever the product [x *
    y] of the coordinates is a finite number. *)
Theorem Vector_tangent_perpendicular (v : Vector.t) :
  Vector.length (Vector.tangent v) = Vector.length v
  /\ (is_finite (Vector.x v * Vector.y v) = true ->
      Vector.dot v (Vector.tangent v) = 0).
Proof.
  unfold Vector.length, Vector.dot, Vector.tangent. cbn [Vector.x Vector.y]. split.
  - rewrite Binary64Laws.mul_opp_opp, Binary64.add_comm. reflexivity.
  - intros F. rewrite Binary64Laws.mul_opp_r, (Binary64Laws.mul_comm (Vector.y v)).
    apply Binary64Laws.opp_add_self, F.
Qed.

Lemma Vector_tangent_perpendicular_witness :
  Vector.length (Vector.tangent (Vector.new 3 4)) = 5
  /\ Vector.dot (Vector.new 3 4) (Vector.tangent (Vector.new 3 4)) = 0.
Proof.
  destruct (Vector_tangent_perpendicular (Vector.new 3 4)) as [H1 H2].
  split; [rewrite H1; reflexivity | exact (H2 eq_refl)].
Defined.

(** * Symmetry of the Minkowski sum *)

(** X10.  For every pair of classes with a formula, [A.sum(B)] and
    [B.sum(A)] are shapes of the same class with the same half extents and
    radius, at rest, centered at [A.center - B.center] and [B.center -
    A.center]. *)
Theorem sum_symmetric_extents (A B : Shape) :
  has_sum_formula A B = true ->
  exists S S' : Shape,
    Shape.sum A B = Ok S /\ Shape.sum B A = Ok S'
    /\ same_extents S S'
    /\ Shape.center S = Vector.sub (Shape.center A) (Shape.center B)
    /\ Shape.center S' = Vector.sub (Shape.center B) (Shape.center A)
    /\ Shape.velocity S = Vector.ZERO /\ Shape.velocity S' = Vector.ZERO.
Proof.
  destruct A as [a|a|a], B as [b|b|b]; intros H; try discriminate H;
    do 2 eexists; (split; [reflexivity|]); (split; [reflexivity|]);
    (split; [|repeat split]); simpl;
    repeat split; try reflexivity; apply Binary64.add_comm.
Qed.

Lemma sum_symmetric_extents_witness :
  exists S S' : Shape,
    Shape.sum Scene.demo_round_rect Scene.moving_circle = Ok S
    /\ Shape.sum Scene.moving_circle Scene.demo_round_rect = Ok S'
    /\ same_extents S S'
    /\ Shape.center S = Vector.new 0 0
    /\ Shape.center S' = Vector.new 0 0
    /\ Shape.velocity S = Vector.ZERO /\ Shape.velocity S' = Vector.ZERO.
Proof.
  exact (sum_symmetric_extents Scene.demo_round_rect Scene.moving_circle eq_refl).
Defined.

(** ** Containment of the origin under a mirrored center *)

Lemma Circle_contains_origin_mirror (a b : Vector.t) (radius : float) :
  Circle.contains (Circle.new (Vector.sub a b) radius) Vector.ZERO
  = Circle.contains (Circle.new (Vector.sub b a) radius) Vector.ZERO.
Proof.
  unfold Circle.contains, Vector.length, Vector.dot, Vector.sub, Vector.ZERO.
  cbn [Circle.center Circle.radius Circle.new Vector.x Vector.y].
  rewrite (Binary64Laws.mirror_square _ _
             (Binary64Laws.mirror_zero_sub _ _
                (Binary64Laws.sub_swap (Vector.x a) (Vector.x b)))).
  rewrite (Binary64Laws.mirror_square _ _
             (Binary64Laws.mirror_zero_sub _ _
                (Binary64Laws.sub_swap (Vector.y a) (Vector.y b)))).
  reflexivity.
Qed.

Lemma RoundRect_contains_origin_mirror (a b : Vector.t) (hw hh radius : float) :
  RoundRect.contains (RoundRect.new (Vector.sub a b) hw hh radius) Vector.ZERO
  = RoundRect.contains (RoundRect.new (Vector.sub b a) hw hh radius) Vector.ZERO.
Proof.
  unfold RoundRect.contains, Vector.abs, Vector.sub, Vector.ZERO, Math.abs.
  cbn [RoundRect.center RoundRect.radius RoundRect.hw RoundRect.hh RoundRect.new
       Vector.x Vector.y].
  rewrite (Binary64Laws.mirror_abs _ _
             (Binary64Laws.mirror_zero_sub _ _
                (Binary64Laws.sub_swap (Vector.x a) (Vector.x b)))).
  rewrite (Binary64Laws.mirror_abs _ _
             (Binary64Laws.mirror_zero_sub _ _
                (Binary64Laws.sub_swap (Vector.y a) (Vector.y b)))).
  reflexivity.
Qed.

Lemma AABB_contains_origin_mirror (a b : Vector.t) (hw hh : float) :
  AABB.contains (AABB.new (Vector.sub a b) hw hh) Vector.ZERO
  = AABB.contains (AABB.new (Vector.sub b a) hw hh) Vector.ZERO.
Proof.
  unfold AABB.contains, AABB.left, AABB.right, AABB.top, AABB.bottom,
    Vector.sub, Vector.ZERO.
  cbn [AABB.center AABB.hw AABB.hh AABB.new Vector.x Vector.y].
  pose proof (Binary64Laws.sub_swap (Vector.x a) (Vector.x b)) as Mx.
  pose proof (Binary64Laws.sub_swap (Vector.y a) (Vector.y b)) as My.
  destruct (Binary64Laws.mirror_leb_zero _ _ (Binary64Laws.mirror_sub_add _ _ hw Mx))
    as [L1 _].
  destruct (Binary64Laws.mirror_leb_zero _ _ (Binary64Laws.mirror_add_sub _ _ hw Mx))
    as [_ R1].
  destruct (Binary64Laws.mirror_leb_zero _ _ (Binary64Laws.mirror_sub_add _ _ hh My))
    as [L2 _].
  destruct (Binary64Laws.mirror_leb_zero _ _ (Binary64Laws.mirror_add_sub _ _ hh My))
    as [_ R2].
  rewrite L1, R1, L2, R2.
  repeat match goal with |- context [?u <=? ?v] =>
    generalize (u <=? v); intro end.
  repeat match goal with b : bool |- _ => destruct b end; reflexivity.
Qed.

(** X11.  [intersects] is symmetric: for every pair of classes with a
    formula, [A.intersects(B)] and [B.intersects(A)] return the same
    boolean. *)
Theorem intersects_symmetric (A B : Shape) :
  has_sum_formula A B = true ->
  exists b : bool, Shape.intersects A B = Ok b /\ Shape.intersects B A = Ok b.
Proof.
  destruct A as [a|a|a], B as [b|b|b]; intros H; try discriminate H;
    eexists; unfold Shape.intersects, Shape.sum, Shape.Circle_sum, Shape.RoundRect_sum,
      Shape.AABB_sum, bind, Shape.contains;
    (split; [reflexivity|]); f_equal.
  all: cbn [Circle.radius Circle.center RoundRect.center RoundRect.hw RoundRect.hh
            RoundRect.radius AABB.center AABB.hw AABB.hh].
  all: clear H.
  all: lazymatch goal with
       | other : _ |- _ =>
           repeat match goal with
             | |- context [?u + ?v] =>
                 lazymatch u with
                 | context [other] => rewrite (Binary64.add_comm u v)
                 end
             end
       end.
  all: first [ apply Circle_contains_origin_mirror
             | apply RoundRect_contains_origin_mirror
             | apply AABB_contains_origin_mirror ].
Qed.

Lemma intersects_symmetric_witness :
  exists b : bool,
    Shape.intersects Scene.demo_box Scene.moving_circle = Ok b
    /\ Shape.intersects Scene.moving_circle Scene.demo_box = Ok b.
Proof.
  exact (intersects_symmetric Scene.demo_box Scene.moving_circle eq_refl).
Defined.

(** * Range of the ray casts *)

Lemma hit_or_miss_miss : hit_or_miss Number.POSITIVE_INFINITY.
Proof. left. reflexivity. Qed.

Lemma rayCastCircle_range_aux (origin direction center : Vector.t) (radius : float) :
  hit_or_miss (rayCastCircle origin direction center radius).
Proof.
  unfold rayCastCircle.
  set (a := Vector.dot direction direction).
  set (b := 2 * Vector.dot direction (Vector.sub origin center)).
  set (det := b * b - 4 * a * _).
  fold (in_unit_interval (- b / (2 * a))).
  fold (in_unit_interval ((- b + Math.sqrt det) / (2 * a))).
  fold (in_unit_interval ((- b - Math.sqrt det) / (2 * a))).
  destruct ((a <=? Number.EPSILON) || (det <? 0)); [apply hit_or_miss_miss|].
  destruct (det =? 0).
  - destruct (in_unit_interval (- b / (2 * a))) eqn:E;
      [right; exact E | apply hit_or_miss_miss].
  - destruct (in_unit_interval ((- b + Math.sqrt det) / (2 * a))) eqn:E1;
      destruct (in_unit_interval ((- b - Math.sqrt det) / (2 * a))) eqn:E2;
      try (right; assumption); try apply hit_or_miss_miss.
    destruct (Math_min_smaller _ _ (in_unit_interval_not_nan _ E1)
                (in_unit_interval_not_nan _ E2)) as [[->| ->] _];
      right; assumption.
Qed.

(** X4.  [rayCastCircle] returns +Infinity or a fraction in [0, 1]: never a
    NaN, a negative number or a number above 1, whatever its arguments. *)
Theorem rayCastCircle_range (origin direction center : Vector.t) (radius : float) :
  hit_or_miss (rayCastCircle origin direction center radius).
Proof. exact (rayCastCircle_range_aux origin direction center radius). Qed.

Lemma in_unit_interval_intro (t : float) :
  is_nan t = false -> (t <? 0) || (1 <? t) = false -> in_unit_interval t = true.
Proof.
  intros N H. apply orb_false_elim in H. destruct H as [H0 H1].
  unfold in_unit_interval.
  rewrite (Binary64Laws.not_ltb_leb 0 t eq_refl N H0),
    (Binary64Laws.not_ltb_leb t 1 N eq_refl H1).
  reflexivity.
Qed.

Lemma rayCastEdge_range_aux (originA endA originB endB : Vector.t) :
  let t := rayCastEdge originA endA originB endB in
  hit_or_miss t \/ is_nan t = true.
Proof.
  unfold rayCastEdge.
  set (det := Vector.cross _ _).
  set (t1 := _ / det). set (t2 := _ / det).
  destruct (det =? 0); [left; apply hit_or_miss_miss|].
  destruct ((t1 <? 0) || (1 <? t1)) eqn:E1; [left; apply hit_or_miss_miss|].
  destruct ((t2 <? 0) || (1 <? t2)); [left; apply hit_or_miss_miss|].
  destruct (is_nan t1) eqn:N; [right; reflexivity|].
  left. right. apply in_unit_interval_intro; assumption.
Qed.

(** X5.  [rayCastEdge] returns +Infinity, a fraction in [0, 1], or NaN; it
    never returns a number outside [0, 1]. *)
Theorem rayCastEdge_range (originA endA originB endB : Vector.t) :
  let t := rayCastEdge originA endA originB endB in
  hit_or_miss t \/ is_nan t = true.
Proof. exact (rayCastEdge_range_aux originA endA originB endB). Qed.

(** ** The least cast *)

Lemma AABB_rayCast_least_cast (this : AABB.t) (origin direction : Vector.t) :
  AABB.rayCast this origin direction = least_cast (AABB_casts this origin direction).
Proof. reflexivity. Qed.

Lemma RoundRect_rayCast_least_cast (this : RoundRect.t) (origin direction : Vector.t) :
  RoundRect.rayCast this origin direction
  = least_cast (RoundRect_casts this origin direction).
Proof. reflexivity. Qed.

Lemma keep_least_spec (m t : float) :
  is_nan m = false -> is_nan t = false ->
  is_nan (keep_least m t) = false
  /\ (keep_least m t <=? m) = true /\ (keep_least m t <=? t) = true
  /\ (keep_least m t = m \/ keep_least m t = t).
Proof.
  intros Nm Nt. unfold keep_least. destruct (t <? m) eqn:E.
  - auto using Binary64.leb_refl, Binary64.ltb_leb.
  - auto using Binary64.leb_refl, Binary64Laws.not_ltb_leb.
Qed.

Lemma fold_keep_least (others : list float) :
  forall first : float,
    is_nan first = false ->
    Forall (fun t => is_nan t = false) others ->
    let r := fold_left keep_least others first in
    is_nan r = false
    /\ (r <=? first) = true
    /\ Forall (fun t => (r <=? t) = true) others
    /\ (r = first \/ In r others).
Proof.
  induction others as [|t others IH]; intros first Nf Hn; simpl.
  - auto using Binary64.leb_refl.
  - inversion Hn as [|? ? Nt Hn']; subst.
    destruct (keep_least_spec first t Nf Nt) as (Nk & Lf & Lt & Hk).
    destruct (IH (keep_least first t) Nk Hn') as (Nr & Lr & Hall & Hr).
    repeat split.
    + exact Nr.
    + exact (Binary64Laws.leb_trans _ _ _ Lr Lf).
    + constructor; [exact (Binary64Laws.leb_trans _ _ _ Lr Lt) | exact Hall].
    + destruct Hr as [->|Hr]; [destruct Hk as [->| ->]; auto | auto].
Qed.

Lemma least_cast_spec (casts : list float) :
  casts <> nil ->
  Forall (fun t => is_nan t = false) casts ->
  In (least_cast casts) casts
  /\ Forall (fun t => (least_cast casts <=? t) = true) casts.
Proof.
  destruct casts as [|first others]; [congruence|]. intros _ Hn.
  inversion Hn as [|? ? Nf Hn']; subst.
  destruct (fold_keep_least others first Nf Hn') as (_ & Lf & Hall & Hr).
  cbv zeta in Lf, Hall, Hr. simpl. split.
  - destruct Hr as [Hr|Hr]; [left; symmetry; exact Hr | right; exact Hr].
  - constructor; assumption.
Qed.

(** X7.  [AABB.rayCast] and [RoundRect.rayCast] return the least of their
    casts (four sides; four sides and four corner circles) when none of the
    casts is NaN: the result is one of them and is below or equal to each. *)
Theorem rayCast_least (origin direction : Vector.t) :
  (forall this : AABB.t,
      let casts := AABB_casts this origin direction in
      Forall (fun t => is_nan t = false) casts ->
      In (AABB.rayCast this origin direction) casts
      /\ Forall (fun t => (AABB.rayCast this origin direction <=? t) = true) casts)
  /\ (forall this : RoundRect.t,
         let casts := RoundRect_casts this origin direction in
         Forall (fun t => is_nan t = false) casts ->
         In (RoundRect.rayCast this origin direction) casts
         /\ Forall (fun t => (RoundRect.rayCast this origin direction <=? t) = true) casts).
Proof.
  split; intros this casts Hn.
  - rewrite AABB_rayCast_least_cast. apply least_cast_spec; [discriminate | exact Hn].
  - rewrite RoundRect_rayCast_least_cast. apply least_cast_spec; [discriminate | exact Hn].
Qed.

(** A ray from the center of the demo box to the right leaves it through
    the right side, half way along the ray. *)
Lemma rayCast_least_witness :
  AABB.rayCast Scene.demo_box (Vector.new 0 0) (Vector.new 100 0) = 0.5
  /\ In (AABB.rayCast Scene.demo_box (Vector.new 0 0) (Vector.new 100 0))
       (AABB_casts Scene.demo_box (Vector.new 0 0) (Vector.new 100 0))
  /\ In (RoundRect.rayCast Scene.demo_round_rect (Vector.new 0 0) (Vector.new 100 0))
       (RoundRect_casts Scene.demo_round_rect (Vector.new 0 0) (Vector.new 100 0)).
Proof.
  split; [reflexivity|]. split.
  - apply (proj1 (rayCast_least (Vector.new 0 0) (Vector.new 100 0)) Scene.demo_box).
    repeat constructor.
  - apply (proj2 (rayCast_least (Vector.new 0 0) (Vector.new 100 0)) Scene.demo_round_rect).
    repeat constructor.
Defined.

(** X6.  Every [rayCast] of the first variant returns +Infinity, a fraction
    in [0, 1], or NaN; that of a circle never returns NaN. *)
Theorem Shape_rayCast_range (this : Shape) (origin direction : Vector.t) :
  let t := Shape.rayCast this origin direction in
  match this with
  | CircleShape _ => hit_or_miss t
  | _ => hit_or_miss t \/ is_nan t = true
  end.
Proof.
  destruct this as [c|r|b]; simpl.
  - apply rayCastCircle_range_aux.
  - unfold RoundRect.rayCast.
    repeat match goal with |- context [if ?c then _ else _] => destruct c end;
      first [ apply rayCastEdge_range_aux | left; apply rayCastCircle_range_aux ].
  - unfold AABB.rayCast.
    repeat match goal with |- context [if ?c then _ else _] => destruct c end;
      apply rayCastEdge_range_aux.
Qed.

(** * Rays that cannot hit *)

(** X8.  A ray of zero direction misses: [rayCastCircle] returns +Infinity
    for every circle, and [rayCastEdge], cast from a finite origin to
    [origin + (0, 0)], returns +Infinity for every edge whose direction
    [endB - originB] is finite. *)
Theorem zero_ray_misses (origin : Vector.t) :
  (forall (center : Vector.t) (radius : float),
      rayCastCircle origin Vector.ZERO center radius = Number.POSITIVE_INFINITY)
  /\ (is_finite (Vector.x origin) = true -> is_finite (Vector.y origin) = true ->
      forall originB endB : Vector.t,
        is_finite (Vector.x (Vector.sub endB originB)) = true ->
        is_finite (Vector.y (Vector.sub endB originB)) = true ->
        rayCastEdge origin (Vector.add origin Vector.ZERO) originB endB
        = Number.POSITIVE_INFINITY).
Proof.
  split.
  - intros center radius. reflexivity.
  - intros Fx Fy originB endB Sx Sy. unfold rayCastEdge.
    set (s := Vector.sub endB originB) in *.
    assert (R : Vector.sub (Vector.add origin Vector.ZERO) origin = Vector.new 0 0).
    { unfold Vector.sub, Vector.add, Vector.ZERO. cbn [Vector.x Vector.y].
      rewrite (Binary64Laws.add_zero_sub _ Fx), (Binary64Laws.add_zero_sub _ Fy).
      reflexivity. }
    rewrite R. unfold Vector.cross at 1. cbn [Vector.x Vector.y].
    rewrite (Binary64Laws.zero_sub_zero _ _ (Binary64Laws.zero_mul_finite _ Sy)
               (Binary64Laws.zero_mul_finite _ Sx)).
    reflexivity.
Qed.

Lemma zero_ray_misses_witness :
  rayCastEdge (Vector.new 3 4) (Vector.add (Vector.new 3 4) Vector.ZERO)
    (Vector.new 0 0) (Vector.new 10 10)
  = Number.POSITIVE_INFINITY.
Proof.
  exact (proj2 (zero_ray_misses (Vector.new 3 4)) eq_refl eq_refl
           (Vector.new 0 0) (Vector.new 10 10) eq_refl eq_refl).
Defined.

(** X9.  A segment misses every segment with the same direction vector,
    itself included: [rayCastEdge] returns +Infinity when [endA - originA =
    endB - originB] and the product of the two coordinates of that vector is
    finite. *)
Theorem rayCastEdge_same_direction (originA endA originB endB : Vector.t) :
  Vector.sub endA originA = Vector.sub endB originB ->
  is_finite (Vector.x (Vector.sub endA originA) * Vector.y (Vector.sub endA originA))
  = true ->
  rayCastEdge originA endA originB endB = Number.POSITIVE_INFINITY.
Proof.
  intros E F. unfold rayCastEdge. rewrite <- E.
  set (r := Vector.sub endA originA) in *.
  unfold Vector.cross at 1.
  rewrite (Binary64Laws.mul_comm (Vector.y r)), (Binary64.sub_self _ F).
  reflexivity.
Qed.

Lemma rayCastEdge_same_direction_witness :
  rayCastEdge (Vector.new 0 0) (Vector.new 2 1) (Vector.new 0 0) (Vector.new 2 1)
  = Number.POSITIVE_INFINITY.
Proof.
  exact (rayCastEdge_same_direction (Vector.new 0 0) (Vector.new 2 1)
           (Vector.new 0 0) (Vector.new 2 1) eq_refl eq_refl).
Defined.

(** * More on the solver *)

Lemma set_center_center (s : Shape) : Shape.set_center s (Shape.center s) = s.
Proof. destruct s as [[]|[]|[]]; reflexivity. Qed.

(** X12.  [solveCollisions] returns unless both shapes are rounded
    rectangles, and then it only moves the two centers: velocity, class,
    half extents and radius of each shape are what they were, in every
    branch. *)
Theorem solveCollisions_moves_centers_only (A B : Shape) (dt : float) :
  (has_sum_formula B A = true ->
   exists A' B' : Shape, Shape.solveCollisions A B dt = Ok (A', B'))
  /\ (forall A' B' : Shape,
         Shape.solveCollisions A B dt = Ok (A', B') ->
         A' = Shape.set_center A (Shape.center A')
         /\ B' = Shape.set_center B (Shape.center B')
         /\ Shape.velocity A' = Shape.velocity A
         /\ Shape.velocity B' = Shape.velocity B).
Proof.
  split.
  - intros H. destruct (sum_has_formula B A H) as [S HS].
    unfold Shape.solveCollisions. rewrite HS. cbn [bind].
    destruct (Shape.contains S Vector.ZERO); [|destruct (_ <? _)];
      do 2 eexists; reflexivity.
  - intros A' B'. unfold Shape.solveCollisions.
    destruct (Shape.sum B A) as [S|e]; cbn [bind]; [|discriminate].
    destruct (Shape.contains S Vector.ZERO); [|destruct (_ <? _)];
      intros H; injection H as <- <-;
      rewrite ?center_set_center, ?velocity_set_center, ?set_center_center;
      repeat split.
Qed.

Lemma solveCollisions_moves_centers_only_witness :
  exists A' B' : Shape,
    Shape.solveCollisions Scene.demo_box Scene.resting_circle 0.5 = Ok (A', B').
Proof.
  exact (proj1 (solveCollisions_moves_centers_only Scene.demo_box Scene.resting_circle 0.5)
           eq_refl).
Defined.

(** X13.  When [S = B.sum(A)] does not contain the origin and the cast of
    the relative motion against [S] is not below +Infinity (a miss, or NaN),
    [solveCollisions] is [update(dt)] on each of the two shapes. *)
Theorem solveCollisions_free_motion (A B : Shape) (dt : float) (S : Shape) :
  Shape.sum B A = Ok S ->
  Shape.contains S Vector.ZERO = false ->
  (Shape.rayCast S Vector.ZERO (Vector.sub (Shape.velocity A) (Shape.velocity B))
   <? Number.POSITIVE_INFINITY) = false ->
  Shape.solveCollisions A B dt = Ok (Shape.update A dt, Shape.update B dt).
Proof.
  intros Hsum Hout Hmiss. unfold Shape.solveCollisions.
  rewrite Hsum. cbn [bind]. rewrite Hout, Hmiss. reflexivity.
Qed.

(** The moving circle passes a circle that rests five units above it. *)
Lemma solveCollisions_free_motion_witness :
  Shape.solveCollisions Scene.moving_circle
    (Circle.Build (Vector.new 0 5) (Vector.new 0 0) 1) 0.5
  = Ok (CircleShape (Circle.Build (Vector.new 0.5 0) (Vector.new 1 0) 1),
        CircleShape (Circle.Build (Vector.new 0 5) (Vector.new 0 0) 1)).
Proof.
  rewrite (solveCollisions_free_motion Scene.moving_circle
             (Circle.Build (Vector.new 0 5) (Vector.new 0 0) 1) 0.5
             (Circle.new (Vector.new 0 5) 2) eq_refl eq_refl eq_refl).
  reflexivity.
Defined.

(** X14.  Two circles with the same finite velocity that do not overlap
    never collide: the relative motion is the zero vector, its cast misses,
    and [solveCollisions] is [update(dt)] on both. *)
Theorem circles_same_velocity_free (a b : Circle.t) (dt : float) :
  Circle.velocity a = Circle.velocity b ->
  is_finite (Vector.x (Circle.velocity a)) = true ->
  is_finite (Vector.y (Circle.velocity a)) = true ->
  Shape.intersects b a = Ok false ->
  Shape.solveCollisions a b dt = Ok (Shape.update a dt, Shape.update b dt).
Proof.
  intros Hv Fx Fy Hout. unfold Shape.intersects in Hout. simpl in Hout.
  injection Hout as Hout.
  unfold Shape.solveCollisions. simpl. rewrite Hout.
  rewrite <- Hv. unfold Vector.sub at 2.
  rewrite (Binary64.sub_self _ Fx), (Binary64.sub_self _ Fy).
  reflexivity.
Qed.

Lemma circles_same_velocity_free_witness :
  Shape.solveCollisions Scene.moving_circle
    (Circle.Build (Vector.new 3 0) (Vector.new 1 0) 1) 0.5
  = Ok (CircleShape (Circle.Build (Vector.new 0.5 0) (Vector.new 1 0) 1),
        CircleShape (Circle.Build (Vector.new 3.5 0) (Vector.new 1 0) 1)).
Proof.
  rewrite (circles_same_velocity_free Scene.moving_circle
             (Circle.Build (Vector.new 3 0) (Vector.new 1 0) 1) 0.5
             eq_refl eq_refl eq_refl eq_refl).
  reflexivity.
Defined.

(** * The degenerate closest point *)

Lemma Circle_closestPoint_center_aux (this : Circle.t) :
  is_finite (Vector.x (Circle.center this)) = true ->
  is_finite (Vector.y (Circle.center this)) = true ->
  Circle.closestPoint this (Circle.center this) = Vector.new nan nan.
Proof.
  destruct this as [[cx cy] v r]. cbn [Circle.center Vector.x Vector.y].
  intros Fx Fy. unfold Circle.closestPoint, Vector.sub, Vector.mul, Vector.add.
  cbn [Circle.center Circle.radius Vector.x Vector.y].
  rewrite (Binary64.sub_self cx Fx), (Binary64.sub_self cy Fy).
  change (Vector.length (Vector.new 0 0)) with 0.
  rewrite Binary64Laws.zero_mul_div_zero, !Binary64Laws.add_nan_r.
  reflexivity.
Qed.

(** X15.  [closestPoint] of a circle at its own center, when that center is
    finite, is the vector (NaN, NaN) for every radius: the offset is the
    zero vector, and scaling it divides by its length 0. *)
Theorem Circle_closestPoint_center (this : Circle.t) :
  is_finite (Vector.x (Circle.center this)) = true ->
  is_finite (Vector.y (Circle.center this)) = true ->
  Circle.closestPoint this (Circle.center this) = Vector.new nan nan.
Proof. exact (Circle_closestPoint_center_aux this). Qed.

Lemma Circle_closestPoint_center_witness :
  Circle.closestPoint Scene.resting_circle (Vector.new 3 0) = Vector.new nan nan.
Proof.
  exact (Circle_closestPoint_center Scene.resting_circle eq_refl eq_refl).
Defined.

(** X16.  Two circles with the same finite center and a positive sum of
    radii overlap, and the displacement that [intersect] returns is (NaN,
    NaN); [solveCollisions] then moves the center of the first circle to
    (NaN, NaN). *)
Theorem concentric_circles_nan (a b : Circle.t) (dt : float) :
  Circle.center a = Circle.center b ->
  is_finite (Vector.x (Circle.center a)) = true ->
  is_finite (Vector.y (Circle.center a)) = true ->
  (0 <? Circle.radius a + Circle.radius b) = true ->
  Shape.intersects a b = Ok true
  /\ Shape.intersect a b = Ok (Some (Vector.new nan nan))
  /\ Shape.solveCollisions a b dt
     = Ok (Shape.set_center a (Vector.new nan nan), CircleShape b).
Proof.
  destruct a as [[ax ay] va ra], b as [cb vb rb].
  cbn [Circle.center Circle.radius Vector.x Vector.y].
  intros <- Fx Fy R.
  assert (S1 : Shape.sum (Circle.Build (Vector.new ax ay) va ra)
                 (Circle.Build (Vector.new ax ay) vb rb)
               = Ok (CircleShape (Circle.new (Vector.new 0 0) (ra + rb)))).
  { simpl. unfold Vector.sub. cbn [Vector.x Vector.y].
    rewrite (Binary64.sub_self ax Fx), (Binary64.sub_self ay Fy). reflexivity. }
  assert (S2 : Shape.sum (Circle.Build (Vector.new ax ay) vb rb)
                 (Circle.Build (Vector.new ax ay) va ra)
               = Ok (CircleShape (Circle.new (Vector.new 0 0) (ra + rb)))).
  { simpl. unfold Vector.sub. cbn [Vector.x Vector.y].
    rewrite (Binary64.sub_self ax Fx), (Binary64.sub_self ay Fy).
    rewrite (Binary64.add_comm rb ra). reflexivity. }
  assert (C : Shape.contains (CircleShape (Circle.new (Vector.new 0 0) (ra + rb)))
                Vector.ZERO = true) by exact R.
  assert (P : Shape.closestPoint (CircleShape (Circle.new (Vector.new 0 0) (ra + rb)))
                Vector.ZERO = Vector.new nan nan)
    by exact (Circle_closestPoint_center_aux (Circle.new (Vector.new 0 0) (ra + rb))
                eq_refl eq_refl).
  unfold Shape.intersects, Shape.intersect, Shape.solveCollisions.
  rewrite S1, S2. cbn [bind]. rewrite C, P.
  repeat split.
  unfold Vector.add. cbn [Shape.center Circle.center Vector.x Vector.y].
  rewrite !Binary64Laws.add_nan_r. reflexivity.
Qed.

Lemma concentric_circles_nan_witness :
  Shape.intersect Scene.resting_circle Scene.resting_circle
  = Ok (Some (Vector.new nan nan)).
Proof.
  exact (proj1 (proj2 (concentric_circles_nan Scene.resting_circle Scene.resting_circle 0.5
                         eq_refl eq_refl eq_refl eq_refl))).
Defined.

(** * The box *)

(** X17.  [closestPoint] of a box always keeps one coordinate of the point
    and takes the other from a side: the result is [(left|right, p.y)] or
    [(p.x, bottom|top)]. For a point that the box contains, the result is
    contained in the box as well, so it lies on the boundary. *)
Theorem AABB_closestPoint_inside (this : AABB.t) (p : Vector.t) :
  let c := AABB.closestPoint this p in
  (((Vector.x c = AABB.left this \/ Vector.x c = AABB.right this)
    /\ Vector.y c = Vector.y p)
   \/ (Vector.x c = Vector.x p
       /\ (Vector.y c = AABB.bottom this \/ Vector.y c = AABB.top this)))
  /\ (AABB.contains this p = true -> AABB.contains this c = true).
Proof.
  unfold AABB.closestPoint, AABB.contains.
  set (l := AABB.left this). set (r := AABB.right this).
  set (t := AABB.top this). set (b := AABB.bottom this).
  destruct p as [px py]. cbn [Vector.x Vector.y].
  split.
  - repeat match goal with |- context [if ?c then _ else _] => destruct c end;
      cbn [Vector.x Vector.y]; tauto.
  - intros H. apply andb_prop in H. destruct H as [H Hb].
    apply andb_prop in H. destruct H as [H Ht].
    apply andb_prop in H. destruct H as [Hl Hr].
    pose proof (Binary64Laws.leb_trans _ _ _ Hl Hr) as Hlr.
    pose proof (Binary64Laws.leb_trans _ _ _ Ht Hb) as Htb.
    destruct (Binary64.leb_not_nan _ _ Hlr) as [Nl Nr].
    destruct (Binary64.leb_not_nan _ _ Htb) as [Nt Nb].
    pose proof (Binary64.leb_refl l Nl) as Rl. pose proof (Binary64.leb_refl r Nr) as Rr.
    pose proof (Binary64.leb_refl t Nt) as Rt. pose proof (Binary64.leb_refl b Nb) as Rb.
    repeat match goal with |- context [if ?c then _ else _] => destruct c end;
      cbn [Vector.x Vector.y];
      rewrite ?Hl, ?Hr, ?Ht, ?Hb, ?Hlr, ?Htb, ?Rl, ?Rr, ?Rt, ?Rb; reflexivity.
Qed.

Lemma AABB_closestPoint_inside_witness :
  AABB.closestPoint Scene.demo_box (Vector.new 40 10) = Vector.new 50 10
  /\ AABB.contains Scene.demo_box (AABB.closestPoint Scene.demo_box (Vector.new 40 10))
     = true.
Proof.
  split; [reflexivity|].
  exact (proj2 (AABB_closestPoint_inside Scene.demo_box (Vector.new 40 10)) eq_refl).
Defined.

(** X18.  [closestPoint] of a box projects the point on a nearest side line.
    With the four distances [|p.x - left|], [|right - p.x|], [|bottom -
    p.y|] and [|top - p.y|] (none of them NaN), the result lies on the side
    of least distance, and ties go to the earlier side in the order left,
    right, bottom, top: a later side wins only when it is strictly nearer. *)
Theorem AABB_closestPoint_nearest_side (this : AABB.t) (p : Vector.t) :
  let dl := Math.abs (Vector.x p - AABB.left this) in
  let dr := Math.abs (AABB.right this - Vector.x p) in
  let db := Math.abs (AABB.bottom this - Vector.y p) in
  let dt := Math.abs (AABB.top this - Vector.y p) in
  let c := AABB.closestPoint this p in
  is_nan dl = false -> is_nan dr = false -> is_nan db = false -> is_nan dt = false ->
  (c = Vector.new (AABB.left this) (Vector.y p)
   /\ (dl <=? dr) = true /\ (dl <=? db) = true /\ (dl <=? dt) = true)
  \/ (c = Vector.new (AABB.right this) (Vector.y p)
      /\ (dr <? dl) = true /\ (dr <=? db) = true /\ (dr <=? dt) = true)
  \/ (c = Vector.new (Vector.x p) (AABB.bottom this)
      /\ (db <? dl) = true /\ (db <? dr) = true /\ (db <=? dt) = true)
  \/ (c = Vector.new (Vector.x p) (AABB.top this)
      /\ (dt <? dl) = true /\ (dt <? dr) = true /\ (dt <? db) = true).
Proof.
  intros dl dr db dt c Nl Nr Nb Nt. unfold c, AABB.closestPoint.
  fold dl dr db dt.
  destruct (dr <? dl) eqn:E1; cbv beta iota zeta;
    [destruct (db <? dr) eqn:E2 | destruct (db <? dl) eqn:E2]; cbv beta iota zeta;
    [destruct (dt <? db) eqn:E3 | destruct (dt <? dr) eqn:E3
    |destruct (dt <? db) eqn:E3 | destruct (dt <? dl) eqn:E3]; cbv beta iota zeta.
  - (* top, after bottom and right *)
    right; right; right. split; [reflexivity|].
    pose proof (Binary64Laws.ltb_trans _ _ _ E3 E2) as H.
    pose proof (Binary64Laws.ltb_trans _ _ _ H E1). auto.
  - (* bottom, after right *)
    right; right; left. split; [reflexivity|].
    pose proof (Binary64Laws.ltb_trans _ _ _ E2 E1).
    pose proof (Binary64Laws.not_ltb_leb _ _ Nb Nt E3). auto.
  - (* top, after right *)
    right; right; right. split; [reflexivity|].
    pose proof (Binary64Laws.ltb_trans _ _ _ E3 E1).
    pose proof (Binary64Laws.ltb_leb_trans _ _ _ E3
                  (Binary64Laws.not_ltb_leb _ _ Nr Nb E2)). auto.
  - (* right *)
    right; left. split; [reflexivity|].
    pose proof (Binary64Laws.not_ltb_leb _ _ Nr Nb E2).
    pose proof (Binary64Laws.not_ltb_leb _ _ Nr Nt E3). auto.
  - (* top, after bottom *)
    right; right; right. split; [reflexivity|].
    pose proof (Binary64Laws.ltb_trans _ _ _ E3 E2) as H.
    pose proof (Binary64Laws.ltb_leb_trans _ _ _ H
                  (Binary64Laws.not_ltb_leb _ _ Nl Nr E1)). auto.
  - (* bottom *)
    right; right; left. split; [reflexivity|].
    pose proof (Binary64Laws.ltb_leb_trans _ _ _ E2
                  (Binary64Laws.not_ltb_leb _ _ Nl Nr E1)).
    pose proof (Binary64Laws.not_ltb_leb _ _ Nb Nt E3). auto.
  - (* top *)
    right; right; right. split; [reflexivity|].
    pose proof (Binary64Laws.ltb_leb_trans _ _ _ E3
                  (Binary64Laws.not_ltb_leb _ _ Nl Nr E1)).
    pose proof (Binary64Laws.ltb_leb_trans _ _ _ E3
                  (Binary64Laws.not_ltb_leb _ _ Nl Nb E2)). auto.
  - (* left *)
    left. split; [reflexivity|].
    pose proof (Binary64Laws.not_ltb_leb _ _ Nl Nr E1).
    pose proof (Binary64Laws.not_ltb_leb _ _ Nl Nb E2).
    pose proof (Binary64Laws.not_ltb_leb _ _ Nl Nt E3). auto.
Qed.

(** At the center of the demo box the four distances are equal and the
    left side wins. *)
Lemma AABB_closestPoint_nearest_side_witness :
  AABB.closestPoint Scene.demo_box (Vector.new 0 0) = Vector.new (-50) 0.
Proof.
  destruct (AABB_closestPoint_nearest_side Scene.demo_box (Vector.new 0 0)
              eq_refl eq_refl eq_refl eq_refl)
    as [[H _]|[(_ & H & _)|[(_ & H & _)|(_ & H & _)]]];
    [exact H | discriminate H | discriminate H | discriminate H].
Defined.

(** * The second variant *)

(** X19.  In the second variant a hit replaces both velocities by the number
    NaN, whatever they were: [solveCollisions] assigns to them the product
    of a number and a [Vector]. The centers advance by [velocity * (dt *
    h)], with [h] the cast against [this]. *)
Theorem Alt_hit_velocities_nan (A B : Shape) (dt h : float) (S : Shape) :
  Alt.sum B A = Ok (Some S) ->
  Shape.contains S Vector.ZERO = false ->
  Alt.rayCast A Vector.ZERO (Vector.sub (Shape.velocity A) (Shape.velocity B)) = Some h ->
  (h <? Number.POSITIVE_INFINITY) = true ->
  Alt.solveCollisions A B dt
  = Ok (Alt.Outcome
          (Vector.add (Shape.center A) (Vector.mul (Shape.velocity A) (dt * h)))
          (Alt.VNumber nan)
          (Vector.add (Shape.center B) (Vector.mul (Shape.velocity B) (dt * h)))
          (Alt.VNumber nan)).
Proof.
  intros Hsum Hout Hcast Hhit. unfold Alt.solveCollisions.
  rewrite Hsum. cbn [bind]. rewrite Hout, Hcast, Hhit.
  unfold Alt.ToNumber_Vector. rewrite !Binary64Laws.mul_nan_r. reflexivity.
Qed.

Lemma Alt_hit_velocities_nan_witness :
  Alt.solveCollisions Scene.moving_circle Scene.resting_circle 0.5
  = Ok (Alt.Outcome (Vector.new 0.5 0) (Alt.VNumber nan)
          (Vector.new 3 0) (Alt.VNumber nan)).
Proof.
  rewrite (Alt_hit_velocities_nan Scene.moving_circle Scene.resting_circle 0.5 1
             (Circle.new (Vector.new 3 0) 2) eq_refl eq_refl eq_refl eq_refl).
  reflexivity.
Defined.

(** X20.  In the second variant [box.sum(circle)] is a rounded rectangle
    that contains no point at all: [AABB.sum] reads [this.radius] and
    [other.hw], which a box and a circle do not have, so its extents are
    NaN. A circle and a box are therefore never found to overlap by
    [circle.solveCollisions(box)]. *)
Theorem Alt_box_sum_circle_empty (box : AABB.t) (circle : Circle.t) :
  exists S : Shape,
    Alt.sum box circle = Ok (Some S)
    /\ forall p : Vector.t, Shape.contains S p = false.
Proof.
  eexists. split; [reflexivity|]. intros p.
  unfold Shape.contains, RoundRect.contains, Vector.add, Vector.abs, Vector.max.
  cbn [RoundRect.center RoundRect.hw RoundRect.hh RoundRect.radius RoundRect.new
       Vector.x Vector.y].
  change (- (Alt.undefined_number + Alt.undefined_number) + Alt.undefined_number)
    with nan.
  rewrite !Binary64Laws.add_nan_r. reflexivity.
Qed.

(** X21.  In the second variant [solveCollisions] returns only when neither
    shape is a rounded rectangle. With a rounded rectangle as [other] it
    throws "implement sum" ([RoundRect] has no [sum]); with a rounded
    rectangle as [this] and a circle or box as [other], [other.sum(this)] is
    [undefined] and reading [contains] of it raises a TypeError. *)
Theorem Alt_solveCollisions_round_rect (A B : Shape) (dt : float) :
  match A, B with
  | _, RoundRectShape _ => Alt.solveCollisions A B dt = Throw (Thrown "implement sum")
  | RoundRectShape _, _ => Alt.solveCollisions A B dt = Throw TypeError
  | _, _ => exists o : Alt.outcome, Alt.solveCollisions A B dt = Ok o
  end.
Proof.
  destruct A as [a|a|a], B as [b|b|b]; try reflexivity;
    unfold Alt.solveCollisions; cbn [Alt.sum bind];
    repeat match goal with |- context [if ?c then _ else _] => destruct c end;
    cbn [Alt.rayCast];
    repeat match goal with |- context [if ?c then _ else _] => destruct c end;
    eexists; reflexivity.
Qed.



(** * Lengths and circles without interior *)

Lemma Vector_length_nonneg_aux (v : Vector.t) :
  is_nan (Vector.length v) = true \/ (0 <=? Vector.length v) = true.
Proof. apply Binary64Laws.sqrt_nonneg. Qed.

(** X23.  [length] of a vector is never negative: it is NaN, or a number
    that is at least 0. *)
Theorem Vector_length_nonneg (v : Vector.t) :
  is_nan (Vector.length v) = true \/ (0 <=? Vector.length v) = true.
Proof. exact (Vector_length_nonneg_aux v). Qed.

(** X24.  A circle whose radius is 0 or negative contains no point, and a
    circle never contains a point when its radius is NaN: [contains] then
    returns false for every argument. *)
Theorem Circle_without_interior (this : Circle.t) (p : Vector.t) :
  (Circle.radius this <=? 0) = true \/ is_nan (Circle.radius this) = true ->
  Circle.contains this p = false.
Proof.
  unfold Circle.contains.
  set (len := Vector.length (Vector.sub p (Circle.center this))).
  intros [R|R].
  - destruct (Vector_length_nonneg_aux (Vector.sub p (Circle.center this))) as [N|L];
      fold len in N || fold len in L.
    + apply not_true_is_false. intros H.
      apply Binary64Laws.ltb_not_nan in H. destruct H as [H _]. congruence.
    + apply Binary64.leb_ltb_false. exact (Binary64Laws.leb_trans _ _ _ R L).
  - apply not_true_is_false. intros H.
    apply Binary64Laws.ltb_not_nan in H. destruct H as [_ H]. congruence.
Qed.

Lemma Circle_without_interior_witness :
  Circle.contains (Circle.new (Vector.new 3 0) 0) (Vector.new 3 0) = false.
Proof.
  exact (Circle_without_interior (Circle.new (Vector.new 3 0) 0) (Vector.new 3 0)
           (or_introl eq_refl)).
Defined.

(** * The side that the rounded rectangle picks *)

(** X25.  [closestPoint] of a rounded rectangle with [hw = hh], for a point
    whose offset from the center lies in the central region
    ([|v.x| <= hw - radius] and [|v.y| < hh - radius]): with [dx] the
    distance to the nearer vertical side and [dy] the distance to the nearer
    horizontal side, the result is the projection on the vertical side when
    [dy < dx], and the projection on the horizontal side otherwise.  It is
    thus on the side that is not the strictly nearer one. *)
Theorem RoundRect_closestPoint_square (this : RoundRect.t) (p : Vector.t) :
  RoundRect.hw this = RoundRect.hh this ->
  let v := Vector.sub p (RoundRect.center this) in
  let q := Vector.abs v in
  let dx := Math.abs (Vector.x q - RoundRect.hw this) in
  let dy := Math.abs (Vector.y q - RoundRect.hh this) in
  (Vector.x q <=? RoundRect.hw this - RoundRect.radius this) = true ->
  (Vector.y q <? RoundRect.hh this - RoundRect.radius this) = true ->
  RoundRect.closestPoint this p
  = if dy <? dx
    then Vector.new (if 0 <? Vector.x v then RoundRect.right this
                     else RoundRect.left this) (Vector.y p)
    else Vector.new (Vector.x p) (if 0 <? Vector.y v then RoundRect.bottom this
                                  else RoundRect.top this).
Proof.
  intros E v q dx dy Hx Hy. unfold RoundRect.closestPoint.
  fold v. fold q. cbn [Vector.x Vector.y].
  rewrite (Binary64.leb_ltb_false _ _ Hx), Hx, Hy. cbv beta iota zeta.
  cbn [andb]. rewrite <- E. fold dx. unfold dy. rewrite <- E.
  destruct (_ <? dx); reflexivity.
Qed.

(** In the demo rounded rectangle the point (0, 25) is 25 away from the
    bottom side and 50 away from the left side; the left side is returned. *)
Lemma RoundRect_closestPoint_square_witness :
  RoundRect.closestPoint Scene.demo_round_rect (Vector.new 0 25) = Vector.new (-50) 25.
Proof.
  rewrite (RoundRect_closestPoint_square Scene.demo_round_rect (Vector.new 0 25)
             eq_refl eq_refl eq_refl).
  reflexivity.
Defined.
